(** * Solodit MCP server: request construction, remote query and result formatting

    A shallow embedding of [src/index.ts]: the filter builder of the
    [search_findings] tool, [searchSoloditFindings], [formatFinding] and the
    detail rendering of [get_finding_by_id], followed by the properties proved
    about them. *)

From Stdlib Require Import String Ascii List Bool Arith ZArith Lia.
From Stdlib Require Import DecimalString.
Import ListNotations.
Open Scope string_scope.

(** ** JavaScript primitives used by the source *)

(** A string is a sequence of code units; a character of [string] stands for
    one code unit (the model covers code units below 256). *)
Module Js.

(** Truthiness of a string: every string but the empty one. *)
Definition truthy (s : string) : bool :=
  match s with
  | EmptyString => false
  | String _ _ => true
  end.

(** [x || d] where [x : string | null] (or [string | undefined]). *)
Definition or_else (x : option string) (d : string) : string :=
  match x with
  | Some s => if truthy s then s else d
  | None => d
  end.

(** [s.substring(start, end)]: both indices are clamped to the length and
    swapped when out of order. *)
Definition substring (s : string) (start end_ : nat) : string :=
  let len := String.length s in
  let a := Nat.min start len in
  let b := Nat.min end_ len in
  String.substring (Nat.min a b) (Nat.max a b - Nat.min a b) s.

(** White space and line terminators removed by [trim], among the code
    units below 256: TAB, LF, VT, FF, CR, SP and NBSP. *)
Definition is_space (c : ascii) : bool :=
  match nat_of_ascii c with
  | 9 | 10 | 11 | 12 | 13 | 32 | 160 => true
  | _ => false
  end.

Fixpoint trimStart (s : string) : string :=
  match s with
  | EmptyString => EmptyString
  | String c r => if is_space c then trimStart r else s
  end.

Fixpoint trimEnd (s : string) : string :=
  match s with
  | EmptyString => EmptyString
  | String c r =>
      match trimEnd r with
      | EmptyString => if is_space c then EmptyString else String c EmptyString
      | r' => String c r'
      end
  end.

(** [s.trim()] *)
Definition trim (s : string) : string := trimEnd (trimStart s).

(** [xs.join(sep)] on an array of strings. *)
Definition join (sep : string) (xs : list string) : string :=
  String.concat sep xs.

(** Decimal rendering of a non-negative integer ([`${n}`] for an
    integer-valued number such as [array.length] or an HTTP status). *)
Definition nat_toString (n : nat) : string :=
  NilZero.string_of_uint (Nat.to_uint n).

(** The newline of a template literal. *)
Definition nl : string := String (ascii_of_nat 10) EmptyString.

(** What a JavaScript computation ends with when it does not return. *)
Inductive exn : Type :=
| Error (message : string)  (* [throw new Error(message)] *)
| TypeError                 (* raised by the runtime: a property read on
                               [null]/[undefined], a failed conversion *)
| Rejected.                 (* a rejected promise of the runtime: [fetch]
                               or [response.json()] *)

Inductive outcome (A : Type) : Type :=
| Returned (a : A)
| Thrown (e : exn).
Arguments Returned {A} a.
Arguments Thrown {A} e.

Definition obind {A B} (m : outcome A) (f : A -> outcome B) : outcome B :=
  match m with
  | Returned a => f a
  | Thrown e => Thrown e
  end.

(** The [number] type of the language. Its IEEE arithmetic is not
    modelled: the source only tests numbers for truthiness, renders them
    in template literals and with [toFixed], and writes integer literals. *)
Class Number : Type := {
  number : Type;
  number_truthy : number -> bool;          (* neither 0 nor NaN *)
  number_toString : number -> string;      (* [`${n}`] *)
  number_toFixed : number -> nat -> string; (* [n.toFixed(d)] *)
  number_of_nat : nat -> number            (* an integer literal *)
}.

(** [x || d] where [x : number | undefined]. *)
Definition or_else_number `{Number} (x : option number) (d : number) : number :=
  match x with
  | Some n => if number_truthy n then n else d
  | None => d
  end.

#[local] Set Warnings "-register-all".

(** A value produced by [JSON.parse]. The properties of an object are its
    own properties, each key once. *)
Inductive value `{Number} : Type :=
| Null
| Bool (b : bool)
| Num (n : number)
| Str (s : string)
| Array (items : list value)
| Object (props : list (string * value)).

(** An own property of an object; [None] is [undefined]. *)
Fixpoint get_own `{Number} (key : string) (props : list (string * value))
  : option value :=
  match props with
  | [] => None
  | (k, v) :: rest => if String.eqb k key then Some v else get_own key rest
  end.

(** [v.message]: a [TypeError] on [null]; an own property of an object;
    [undefined] on the other values, whose prototypes have no property of
    that name. *)
Definition get_message `{Number} (v : value) : outcome (option value) :=
  match v with
  | Null => Thrown TypeError
  | Object props => Returned (get_own "message" props)
  | Bool _ | Num _ | Str _ | Array _ => Returned None
  end.

(** Truthiness of a value that may be [undefined]. *)
Definition value_truthy `{Number} (v : option value) : bool :=
  match v with
  | None | Some Null => false
  | Some (Bool b) => b
  | Some (Num n) => number_truthy n
  | Some (Str s) => truthy s
  | Some (Array _) | Some (Object _) => true
  end.

(** The string a template literal puts for a value. An array joins its
    elements with a comma, [null] elements rendering empty; an object
    renders through [Object.prototype.toString], unless an own property
    [toString] (never callable in parsed JSON) hides it, in which case
    the conversion fails. *)
Fixpoint toString `{Number} (v : value) : outcome string :=
  match v with
  | Null => Returned "null"
  | Bool b => Returned (if b then "true" else "false")
  | Num n => Returned (number_toString n)
  | Str s => Returned s
  | Array items =>
      obind
        ((fix elements (l : list value) : outcome (list string) :=
            match l with
            | [] => Returned []
            | x :: rest =>
                obind (match x with Null => Returned "" | _ => toString x end)
                  (fun s => obind (elements rest)
                              (fun ss => Returned (s :: ss)))
            end) items)
        (fun ss => Returned (join "," ss))
  | Object props =>
      match get_own "toString" props with
      | Some _ => Thrown TypeError
      | None => Returned "[object Object]"
      end
  end.

End Js.

Export Js(Number, number, number_truthy, number_toString, number_toFixed,
          number_of_nat, exn, outcome).

(** ** Data model *)

(** [impact]: "HIGH" | "MEDIUM" | "LOW" | "GAS" *)
Inductive Impact : Type := HIGH | MEDIUM | LOW | GAS.

Definition Impact_toString (i : Impact) : string :=
  match i with
  | HIGH => "HIGH"
  | MEDIUM => "MEDIUM"
  | LOW => "LOW"
  | GAS => "GAS"
  end.

(** [reported.value]: "30" | "60" | "90" | "after" | "alltime"; the input
    schema of [reportedDays] admits all of them but "after". *)
Inductive Reported : Type := R30 | R60 | R90 | Rafter | Ralltime.

Inductive ReportedDays : Type := D30 | D60 | D90 | Dalltime.

Definition Reported_of_days (d : ReportedDays) : Reported :=
  match d with
  | D30 => R30
  | D60 => R60
  | D90 => R90
  | Dalltime => Ralltime
  end.

Inductive SortField : Type := Recency | Quality | Rarity.

Inductive SortDirection : Type := Desc | Asc.

(** [{ value: string; label?: string }] *)
Record ValueLabel : Type := mkValueLabel {
  value : string;
  label : option string
}.

(** [{ value: ...; label?: string }] of the [reported] filter. *)
Module ReportedFilter.
Record t : Type := mk {
  value : Reported;
  label : option string
}.
End ReportedFilter.

(** [interface SoloditFilters]: every field is optional; [None] is an
    absent key. *)
Module SoloditFilters.
Record t `{Number} : Type := mk {
  keywords : option string;
  impact : option (list Impact);
  firms : option (list ValueLabel);
  tags : option (list ValueLabel);
  protocol : option string;
  protocolCategory : option (list ValueLabel);
  forked : option (list ValueLabel);
  languages : option (list ValueLabel);
  user : option string;
  minFinders : option string;
  maxFinders : option string;
  reported : option ReportedFilter.t;
  reportedAfter : option string;
  qualityScore : option number;
  rarityScore : option number;
  sortField : option SortField;
  sortDirection : option SortDirection
}.

Arguments mk {_}.

Definition key_if {A} (name : string) (field : option A) : list string :=
  match field with
  | Some _ => [name]
  | None => []
  end.

(** [Object.keys(filters)]. The keys come in insertion order; the handler
    assigns them in the order of the interface. *)
Definition keys `{Number} (f : t) : list string :=
  key_if "keywords" (keywords f) ++ key_if "impact" (impact f)
  ++ key_if "firms" (firms f) ++ key_if "tags" (tags f)
  ++ key_if "protocol" (protocol f)
  ++ key_if "protocolCategory" (protocolCategory f)
  ++ key_if "forked" (forked f) ++ key_if "languages" (languages f)
  ++ key_if "user" (user f) ++ key_if "minFinders" (minFinders f)
  ++ key_if "maxFinders" (maxFinders f) ++ key_if "reported" (reported f)
  ++ key_if "reportedAfter" (reportedAfter f)
  ++ key_if "qualityScore" (qualityScore f)
  ++ key_if "rarityScore" (rarityScore f)
  ++ key_if "sortField" (sortField f)
  ++ key_if "sortDirection" (sortDirection f).
End SoloditFilters.

(** [interface SoloditRequest] *)
Module SoloditRequest.
Record t `{Number} : Type := mk {
  page : option number;
  pageSize : option number;
  filters : option SoloditFilters.t
}.
End SoloditRequest.

(** [interface SoloditFinding]. The two nested lists are declared as arrays;
    the record is read from the remote service's JSON without validation, so
    [None] stands for a list that is [null] or absent there. *)
Module SoloditFinding.
(** The element types of the two nested lists:
    [{ wardens_warden: { handle } }] and [{ tags_tag: { title } }]. *)
Record Warden : Type := mkWarden { handle : string }.
Record IssueFinder : Type := mkIssueFinder { wardens_warden : Warden }.
Module Tag.
Record t : Type := mk { title : string }.
End Tag.
Record IssueTagScore : Type := mkIssueTagScore { tags_tag : Tag.t }.

Record t `{Number} : Type := mk {
  id : string;
  slug : string;
  title : string;
  content : string;
  summary : option string;
  impact : Impact;
  quality_score : number;
  general_score : number;
  report_date : option string;
  firm_name : option string;
  protocol_name : option string;
  finders_count : number;
  source_link : option string;
  issues_issue_finders : option (list IssueFinder);
  issues_issuetagscore : option (list IssueTagScore)
}.
End SoloditFinding.

(** [interface SoloditResponse] *)
Module SoloditResponse.
Record Metadata `{Number} : Type := mkMetadata {
  totalResults : number;
  currentPage : number;
  pageSize : number;
  totalPages : number;
  elapsed : number
}.
Arguments mkMetadata {_}.
Record RateLimit `{Number} : Type := mkRateLimit {
  limit : number;
  remaining : number;
  reset : number
}.
Arguments mkRateLimit {_}.
Record t `{Number} : Type := mk {
  findings : list SoloditFinding.t;
  metadata : Metadata;
  rateLimit : RateLimit
}.
End SoloditResponse.

(** The arguments of the [search_findings] tool, as its input schema admits
    them: every field is optional; [None] is an absent argument. *)
Module SearchArgs.
Record t `{Number} : Type := mk {
  keywords : option string;
  impact : option (list Impact);
  firms : option (list string);
  tags : option (list string);
  protocol : option string;
  protocolCategory : option (list string);
  languages : option (list string);
  user : option string;
  minFinders : option string;
  maxFinders : option string;
  reportedDays : option ReportedDays;
  qualityScore : option number;
  rarityScore : option number;
  sortField : option SortField;
  sortDirection : option SortDirection;
  page : option number;
  pageSize : option number
}.
Arguments mk {_}.
End SearchArgs.

(** What a tool hands back: [{ content: [{ type: "text", text }] }]. *)
Record TextContent : Type := mkTextContent {
  type : string;
  text : string
}.

Record ToolResult : Type := mkToolResult {
  content : list TextContent
}.

(** ** The remote service and the outbound call *)

Module Http.
(** The request given to [fetch]. [body] is the value handed to
    [JSON.stringify], which writes the keys that are present. *)
Record Request `{Number} : Type := mkRequest {
  url : string;
  method : string;
  headers : list (string * string);
  body : SoloditRequest.t
}.

(** What the code reads of a response. When [response.ok] holds, the
    body is returned under its declared type; [json] is what
    [response.json()] resolves to, [None] when it rejects. *)
Inductive Response `{Number} : Type :=
| Success (json : option SoloditResponse.t)
| Failure (status : nat) (statusText : string) (json : option Js.value).

Inductive FetchResult `{Number} : Type :=
| Unreachable               (* the promise of [fetch] rejects *)
| Responded (r : Response).
End Http.

(** A computation that may call [fetch]: it returns, throws, or issues a
    request and goes on with what the remote side answers. *)
Inductive io `{Number} (A : Type) : Type :=
| Ret (a : A)
| Throw (e : exn)
| Fetch (req : Http.Request) (k : Http.FetchResult -> io A).
Arguments Ret {_ A} a.
Arguments Throw {_ A} e.
Arguments Fetch {_ A} req k.

Fixpoint bind `{Number} {A B} (m : io A) (f : A -> io B) : io B :=
  match m with
  | Ret a => f a
  | Throw e => Throw e
  | Fetch req k => Fetch req (fun r => bind (k r) f)
  end.

Definition lift `{Number} {A} (m : outcome A) : io A :=
  match m with
  | Js.Returned a => Ret a
  | Js.Thrown e => Throw e
  end.

Notation "x <- m ;; k" := (bind m (fun x => k))
  (at level 61, m at next level, right associativity).

(** Running a computation against a remote side: the requests issued, in
    order, and how the computation ends. *)
Fixpoint run `{Number} {A} (remote : Http.Request -> Http.FetchResult)
  (m : io A) : list Http.Request * outcome A :=
  match m with
  | Ret a => ([], Js.Returned a)
  | Throw e => ([], Js.Thrown e)
  | Fetch req k =>
      let (calls, res) := run remote (k (remote req)) in (req :: calls, res)
  end.

(** ** The program *)

Section Program.
Context `{Number}.

Definition SOLODIT_API_BASE_URL : string :=
  "https://solodit.cyfrin.io/api/v1/solodit".

(** [process.env.SOLODIT_API_KEY || ""], given the value of the
    environment variable ([None] when it is not set). *)
Definition SOLODIT_API_KEY (env : option string) : string :=
  Js.or_else env "".

(** The lines of a multi-line template literal, joined by newlines. *)
Definition lines (ls : list string) : string := Js.join Js.nl ls.

(** [errorData.message || response.statusText], as the template literal
    renders it. *)
Definition error_detail (errorData : Js.value) (statusText : string)
  : outcome string :=
  Js.obind (Js.get_message errorData) (fun message =>
    if Js.value_truthy message
    then match message with
         | Some v => Js.toString v
         | None => Js.Returned statusText
         end
    else Js.Returned statusText).

Definition searchSoloditFindings (env : option string)
  (request : SoloditRequest.t) : io SoloditResponse.t :=
  if negb (Js.truthy (SOLODIT_API_KEY env)) then
    Throw (Js.Error
      "SOLODIT_API_KEY environment variable is not set. Please set it to use the Solodit API.")
  else
    Fetch
      {| Http.url := SOLODIT_API_BASE_URL ++ "/findings";
         Http.method := "POST";
         Http.headers := [("Content-Type", "application/json");
                          ("X-Cyfrin-API-Key", SOLODIT_API_KEY env)];
         Http.body := request |}
      (fun result =>
         match result with
         | Http.Unreachable => Throw Js.Rejected
         | Http.Responded (Http.Failure status statusText json) =>
             (* [response.json().catch(() => ({}))] *)
             let errorData :=
               match json with
               | Some v => v
               | None => Js.Object []
               end in
             detail <- lift (error_detail errorData statusText) ;;
             Throw (Js.Error ("Solodit API error (" ++ Js.nat_toString status
                              ++ "): " ++ detail))
         | Http.Responded (Http.Success None) => Throw Js.Rejected
         | Http.Responded (Http.Success (Some response)) => Ret response
         end).

(** [xs.map(f)] on a list that may be [null] or absent. *)
Definition array_map {A B} (xs : option (list A)) (f : A -> B)
  : outcome (list B) :=
  match xs with
  | Some l => Js.Returned (map f l)
  | None => Js.Thrown Js.TypeError
  end.

(** A line [**label:** value] of the field table. *)
Definition field_line (row : string * string) : string :=
  "**" ++ fst row ++ ":** " ++ snd row.

(** [s || "N/A"] *)
Definition or_NA (s : option string) : string := Js.or_else s "N/A".

(** The body excerpt of the list mode:
    [finding.summary || finding.content.substring(0, 500) + "..."]. *)
Definition body_excerpt (finding : SoloditFinding.t) : string :=
  Js.or_else (SoloditFinding.summary finding)
    (Js.substring (SoloditFinding.content finding) 0 500 ++ "...").

(** The field lines of [formatFinding], from [**ID:**] to [**Source:**]. *)
Definition formatFinding_fields (finding : SoloditFinding.t)
  (finders tags : string) : list (string * string) :=
  [ ("ID", SoloditFinding.id finding);
    ("Slug", SoloditFinding.slug finding);
    ("Protocol", or_NA (SoloditFinding.protocol_name finding));
    ("Audit Firm", or_NA (SoloditFinding.firm_name finding));
    ("Quality Score",
      number_toString (SoloditFinding.quality_score finding) ++ "/5");
    ("Rarity Score",
      number_toString (SoloditFinding.general_score finding) ++ "/5");
    ("Report Date", or_NA (SoloditFinding.report_date finding));
    ("Finders",
      or_NA (Some finders) ++ " ("
      ++ number_toString (SoloditFinding.finders_count finding) ++ " total)");
    ("Tags", or_NA (Some tags));
    ("Source", or_NA (SoloditFinding.source_link finding)) ].

Definition formatFinding (finding : SoloditFinding.t) : outcome string :=
  Js.obind
    (array_map (SoloditFinding.issues_issuetagscore finding)
       (fun t => SoloditFinding.Tag.title (SoloditFinding.tags_tag t)))
    (fun titles =>
  let tags := Js.join ", " titles in
  Js.obind
    (array_map (SoloditFinding.issues_issue_finders finding)
       (fun f => SoloditFinding.handle (SoloditFinding.wardens_warden f)))
    (fun handles =>
  let finders := Js.join ", " handles in
  Js.Returned (Js.trim (lines (
    [ "";
      "## [" ++ Impact_toString (SoloditFinding.impact finding) ++ "] "
        ++ SoloditFinding.title finding;
      "" ]
    ++ map field_line (formatFinding_fields finding finders tags)
    ++ [ "";
         body_excerpt finding;
         "";
         "---";
         "" ]))))).

(** The field lines of the detail template of [get_finding_by_id], from
    [**ID:**] to [**Source:**]. *)
Definition formattedFinding_fields (finding : SoloditFinding.t)
  (finders tags : string) : list (string * string) :=
  [ ("ID", SoloditFinding.id finding);
    ("Slug", SoloditFinding.slug finding);
    ("Impact", Impact_toString (SoloditFinding.impact finding));
    ("Protocol", or_NA (SoloditFinding.protocol_name finding));
    ("Audit Firm", or_NA (SoloditFinding.firm_name finding));
    ("Quality Score",
      number_toString (SoloditFinding.quality_score finding) ++ "/5");
    ("Rarity Score",
      number_toString (SoloditFinding.general_score finding) ++ "/5");
    ("Report Date", or_NA (SoloditFinding.report_date finding));
    ("Finders",
      or_NA (Some finders) ++ " ("
      ++ number_toString (SoloditFinding.finders_count finding) ++ " total)");
    ("Tags", or_NA (Some tags));
    ("Source", or_NA (SoloditFinding.source_link finding)) ].

(** The template [formattedFinding] of the [get_finding_by_id] handler. *)
Definition formattedFinding (finding : SoloditFinding.t) : outcome string :=
  Js.obind
    (array_map (SoloditFinding.issues_issue_finders finding)
       (fun f => SoloditFinding.handle (SoloditFinding.wardens_warden f)))
    (fun handles =>
  let finders := Js.join ", " handles in
  Js.obind
    (array_map (SoloditFinding.issues_issuetagscore finding)
       (fun t => SoloditFinding.Tag.title (SoloditFinding.tags_tag t)))
    (fun titles =>
  let tags := Js.join ", " titles in
  Js.Returned (Js.trim (lines (
    [ "";
      "# " ++ SoloditFinding.title finding;
      "" ]
    ++ map field_line (formattedFinding_fields finding finders tags)
    ++ [ "";
         "---";
         "";
         "## Content";
         "";
         SoloditFinding.content finding;
         "" ]))))).

(** [xs.map(f)] for an [f] that may throw: the first failure ends it. *)
Fixpoint map_throwing {A B} (f : A -> outcome B) (xs : list A)
  : outcome (list B) :=
  match xs with
  | [] => Js.Returned []
  | x :: rest =>
      Js.obind (f x) (fun y =>
      Js.obind (map_throwing f rest) (fun ys => Js.Returned (y :: ys)))
  end.

Definition text_result (t : string) : ToolResult :=
  {| content := [ {| type := "text"; text := t |} ] |}.

(** [if (x) filters.k = x] for a string argument: the empty string is
    falsy and leaves the key out. *)
Definition when_truthy (x : option string) : option string :=
  match x with
  | Some s => if Js.truthy s then Some s else None
  | None => None
  end.

(** [xs.map((f) => ({ value: f }))] *)
Definition wrap_values (xs : list string) : list ValueLabel :=
  map (fun f => {| value := f; label := None |}) xs.

(** The [filters] object of the [search_findings] handler after its
    fifteen conditional assignments; each assigns a key of its own. *)
Definition build_filters (args : SearchArgs.t) : SoloditFilters.t :=
  {| SoloditFilters.keywords := when_truthy (SearchArgs.keywords args);
     SoloditFilters.impact := SearchArgs.impact args;
     SoloditFilters.firms := option_map wrap_values (SearchArgs.firms args);
     SoloditFilters.tags := option_map wrap_values (SearchArgs.tags args);
     SoloditFilters.protocol := when_truthy (SearchArgs.protocol args);
     SoloditFilters.protocolCategory :=
       option_map wrap_values (SearchArgs.protocolCategory args);
     SoloditFilters.forked := None;
     SoloditFilters.languages :=
       option_map wrap_values (SearchArgs.languages args);
     SoloditFilters.user := when_truthy (SearchArgs.user args);
     SoloditFilters.minFinders := when_truthy (SearchArgs.minFinders args);
     SoloditFilters.maxFinders := when_truthy (SearchArgs.maxFinders args);
     SoloditFilters.reported :=
       option_map
         (fun d => {| ReportedFilter.value := Reported_of_days d;
                      ReportedFilter.label := None |})
         (SearchArgs.reportedDays args);
     SoloditFilters.reportedAfter := None;
     SoloditFilters.qualityScore := SearchArgs.qualityScore args;
     SoloditFilters.rarityScore := SearchArgs.rarityScore args;
     SoloditFilters.sortField := SearchArgs.sortField args;
     SoloditFilters.sortDirection := SearchArgs.sortDirection args |}.

(** The [searchRequest] of the [search_findings] handler. *)
Definition search_request (args : SearchArgs.t) : SoloditRequest.t :=
  let filters := build_filters args in
  {| SoloditRequest.page :=
       Some (Js.or_else_number (SearchArgs.page args) (number_of_nat 1));
     SoloditRequest.pageSize :=
       Some (Js.or_else_number (SearchArgs.pageSize args) (number_of_nat 20));
     SoloditRequest.filters :=
       if (0 <? List.length (SoloditFilters.keys filters))%nat
       then Some filters
       else None |}.

(** The summary text of the [search_findings] handler. *)
Definition search_summary (response : SoloditResponse.t)
  (formattedFindings : string) : string :=
  let metadata := SoloditResponse.metadata response in
  let rateLimit := SoloditResponse.rateLimit response in
  Js.trim (lines
    [ "";
      "# Solodit Search Results";
      "";
      "**Total Results:** "
        ++ number_toString (SoloditResponse.totalResults metadata);
      "**Page:** " ++ number_toString (SoloditResponse.currentPage metadata)
        ++ " of " ++ number_toString (SoloditResponse.totalPages metadata);
      "**Results on this page:** "
        ++ Js.nat_toString (List.length (SoloditResponse.findings response));
      "**Query Time:** "
        ++ number_toFixed (SoloditResponse.elapsed metadata) 3 ++ "s";
      "**Rate Limit:** "
        ++ number_toString (SoloditResponse.remaining rateLimit) ++ "/"
        ++ number_toString (SoloditResponse.limit rateLimit) ++ " remaining";
      "";
      "---";
      "";
      formattedFindings;
      "" ]).

(** The handler of the [search_findings] tool. *)
Definition search_findings (env : option string) (args : SearchArgs.t)
  : io ToolResult :=
  response <- searchSoloditFindings env (search_request args) ;;
  blocks <- lift (map_throwing formatFinding
                    (SoloditResponse.findings response)) ;;
  let formattedFindings := Js.join (Js.nl ++ Js.nl) blocks in
  Ret (text_result (search_summary response formattedFindings)).

(** The request of the [get_finding_by_id] handler. *)
Definition lookup_request (keywords : string) : SoloditRequest.t :=
  {| SoloditRequest.page := Some (number_of_nat 1);
     SoloditRequest.pageSize := Some (number_of_nat 1);
     SoloditRequest.filters :=
       Some {| SoloditFilters.keywords := Some keywords;
               SoloditFilters.impact := None;
               SoloditFilters.firms := None;
               SoloditFilters.tags := None;
               SoloditFilters.protocol := None;
               SoloditFilters.protocolCategory := None;
               SoloditFilters.forked := None;
               SoloditFilters.languages := None;
               SoloditFilters.user := None;
               SoloditFilters.minFinders := None;
               SoloditFilters.maxFinders := None;
               SoloditFilters.reported := None;
               SoloditFilters.reportedAfter := None;
               SoloditFilters.qualityScore := None;
               SoloditFilters.rarityScore := None;
               SoloditFilters.sortField := None;
               SoloditFilters.sortDirection := None |} |}.

Definition not_found (keywords : string) : string :=
  "No finding found with ID or slug: " ++ keywords.

(** The handler of the [get_finding_by_id] tool; its only argument,
    [keywords], is required. An element of [findings] is an object, so
    the second test of the handler, [!finding], never holds. *)
Definition get_finding_by_id (env : option string) (keywords : string)
  : io ToolResult :=
  response <- searchSoloditFindings env (lookup_request keywords) ;;
  match SoloditResponse.findings response with
  | [] => Ret (text_result (not_found keywords))
  | finding :: _ =>
      formatted <- lift (formattedFinding finding) ;;
      Ret (text_result formatted)
  end.

End Program.


(** ** Vocabulary of the statements *)

Section Vocabulary.
Context `{Number}.

(** The filter arguments the caller supplied: the keys of [args] other
    than [page] and [pageSize], in the order of the input schema. *)
Definition supplied_filters (args : SearchArgs.t) : list string :=
  SoloditFilters.key_if "keywords" (SearchArgs.keywords args)
  ++ SoloditFilters.key_if "impact" (SearchArgs.impact args)
  ++ SoloditFilters.key_if "firms" (SearchArgs.firms args)
  ++ SoloditFilters.key_if "tags" (SearchArgs.tags args)
  ++ SoloditFilters.key_if "protocol" (SearchArgs.protocol args)
  ++ SoloditFilters.key_if "protocolCategory" (SearchArgs.protocolCategory args)
  ++ SoloditFilters.key_if "languages" (SearchArgs.languages args)
  ++ SoloditFilters.key_if "user" (SearchArgs.user args)
  ++ SoloditFilters.key_if "minFinders" (SearchArgs.minFinders args)
  ++ SoloditFilters.key_if "maxFinders" (SearchArgs.maxFinders args)
  ++ SoloditFilters.key_if "reportedDays" (SearchArgs.reportedDays args)
  ++ SoloditFilters.key_if "qualityScore" (SearchArgs.qualityScore args)
  ++ SoloditFilters.key_if "rarityScore" (SearchArgs.rarityScore args)
  ++ SoloditFilters.key_if "sortField" (SearchArgs.sortField args)
  ++ SoloditFilters.key_if "sortDirection" (SearchArgs.sortDirection args).

(** A string argument counts when it is supplied and not the empty string. *)
Definition key_if_nonempty (name : string) (x : option string) : list string :=
  match x with
  | Some s => if String.eqb s "" then [] else [name]
  | None => []
  end.

(** The filter arguments supplied with a value other than the empty
    string (a list, a number and an enumerated value always count). *)
Definition nonempty_filters (args : SearchArgs.t) : list string :=
  key_if_nonempty "keywords" (SearchArgs.keywords args)
  ++ SoloditFilters.key_if "impact" (SearchArgs.impact args)
  ++ SoloditFilters.key_if "firms" (SearchArgs.firms args)
  ++ SoloditFilters.key_if "tags" (SearchArgs.tags args)
  ++ key_if_nonempty "protocol" (SearchArgs.protocol args)
  ++ SoloditFilters.key_if "protocolCategory" (SearchArgs.protocolCategory args)
  ++ SoloditFilters.key_if "languages" (SearchArgs.languages args)
  ++ key_if_nonempty "user" (SearchArgs.user args)
  ++ key_if_nonempty "minFinders" (SearchArgs.minFinders args)
  ++ key_if_nonempty "maxFinders" (SearchArgs.maxFinders args)
  ++ SoloditFilters.key_if "reportedDays" (SearchArgs.reportedDays args)
  ++ SoloditFilters.key_if "qualityScore" (SearchArgs.qualityScore args)
  ++ SoloditFilters.key_if "rarityScore" (SearchArgs.rarityScore args)
  ++ SoloditFilters.key_if "sortField" (SearchArgs.sortField args)
  ++ SoloditFilters.key_if "sortDirection" (SearchArgs.sortDirection args).

(** The filter key an argument goes to: [reportedDays] goes to [reported],
    every other argument to the key of its own name. *)
Definition filter_key (argument : string) : string :=
  if String.eqb argument "reportedDays" then "reported" else argument.

(** The four free-text list filters. *)
Inductive FreeTextList : Type := Firms | Tags | ProtocolCategory | Languages.

Definition list_argument (which : FreeTextList) (args : SearchArgs.t)
  : option (list string) :=
  match which with
  | Firms => SearchArgs.firms args
  | Tags => SearchArgs.tags args
  | ProtocolCategory => SearchArgs.protocolCategory args
  | Languages => SearchArgs.languages args
  end.

Definition list_filter (which : FreeTextList) (f : SoloditFilters.t)
  : option (list ValueLabel) :=
  match which with
  | Firms => SoloditFilters.firms f
  | Tags => SoloditFilters.tags f
  | ProtocolCategory => SoloditFilters.protocolCategory f
  | Languages => SoloditFilters.languages f
  end.

(** The finding [f] with its summary replaced. *)
Definition with_summary (s : option string) (f : SoloditFinding.t)
  : SoloditFinding.t :=
  {| SoloditFinding.id := SoloditFinding.id f;
     SoloditFinding.slug := SoloditFinding.slug f;
     SoloditFinding.title := SoloditFinding.title f;
     SoloditFinding.content := SoloditFinding.content f;
     SoloditFinding.summary := s;
     SoloditFinding.impact := SoloditFinding.impact f;
     SoloditFinding.quality_score := SoloditFinding.quality_score f;
     SoloditFinding.general_score := SoloditFinding.general_score f;
     SoloditFinding.report_date := SoloditFinding.report_date f;
     SoloditFinding.firm_name := SoloditFinding.firm_name f;
     SoloditFinding.protocol_name := SoloditFinding.protocol_name f;
     SoloditFinding.finders_count := SoloditFinding.finders_count f;
     SoloditFinding.source_link := SoloditFinding.source_link f;
     SoloditFinding.issues_issue_finders := SoloditFinding.issues_issue_finders f;
     SoloditFinding.issues_issuetagscore := SoloditFinding.issues_issuetagscore f |}.

(** The comma-joined finder handles and tag titles of a finding whose
    lists are [fs] and [ts]. *)
Definition joined_handles (fs : list SoloditFinding.IssueFinder) : string :=
  Js.join ", "
    (map (fun f => SoloditFinding.handle (SoloditFinding.wardens_warden f)) fs).

Definition joined_titles (ts : list SoloditFinding.IssueTagScore) : string :=
  Js.join ", "
    (map (fun t => SoloditFinding.Tag.title (SoloditFinding.tags_tag t)) ts).

(** The lines of a text. *)
Fixpoint split_lines (s : string) : list string :=
  match s with
  | EmptyString => [EmptyString]
  | String c r =>
      match split_lines r with
      | [] => [String c EmptyString]
      | l :: ls =>
          if Ascii.eqb c (ascii_of_nat 10)
          then EmptyString :: l :: ls
          else String c l :: ls
      end
  end.

(** The field table of a rendered finding: its lines that open with the
    bold mark of a label. *)
Definition field_rows (rendered : string) : list string :=
  filter (String.prefix "**") (split_lines rendered).

Definition table_of (rendered : outcome string) : outcome (list string) :=
  Js.obind rendered (fun out => Js.Returned (field_rows out)).

(** The labels of the field table of [formatFinding], top to bottom. *)
Definition list_labels : list string :=
  [ "ID"; "Slug"; "Protocol"; "Audit Firm"; "Quality Score"; "Rarity Score";
    "Report Date"; "Finders"; "Tags"; "Source" ].

(** The request [searchSoloditFindings] posts. *)
Definition is_post_of (env : option string) (request : SoloditRequest.t)
  (req : Http.Request) : Prop :=
  Http.url req = "https://solodit.cyfrin.io/api/v1/solodit/findings"
  /\ Http.method req = "POST"
  /\ Http.headers req = [("Content-Type", "application/json");
                         ("X-Cyfrin-API-Key", SOLODIT_API_KEY env)]
  /\ Http.body req = request.

(** The message of the configuration error. *)
Definition missing_key_message : string :=
  "SOLODIT_API_KEY environment variable is not set. Please set it to use the Solodit API.".

End Vocabulary.

(** ** Further vocabulary *)

Section FurtherVocabulary.
Context `{Number}.

(** The nullable text fields of a finding that [formatFinding] renders with
    [|| "N/A"], and the labels of their rows. *)
Inductive NullableField : Type :=
  ProtocolName | FirmName | ReportDate | SourceLink.

Definition nullable_value (field : NullableField) (f : SoloditFinding.t)
  : option string :=
  match field with
  | ProtocolName => SoloditFinding.protocol_name f
  | FirmName => SoloditFinding.firm_name f
  | ReportDate => SoloditFinding.report_date f
  | SourceLink => SoloditFinding.source_link f
  end.

Definition nullable_label (field : NullableField) : string :=
  match field with
  | ProtocolName => "Protocol"
  | FirmName => "Audit Firm"
  | ReportDate => "Report Date"
  | SourceLink => "Source"
  end.

(** The two nested lists of a finding are arrays. *)
Definition has_arrays (f : SoloditFinding.t) : Prop :=
  exists (fs : list SoloditFinding.IssueFinder)
         (ts : list SoloditFinding.IssueTagScore),
    SoloditFinding.issues_issue_finders f = Some fs
    /\ SoloditFinding.issues_issuetagscore f = Some ts.

(** One of the two nested lists of a finding is [null] or absent. *)
Definition lacks_array (f : SoloditFinding.t) : Prop :=
  SoloditFinding.issues_issue_finders f = None
  \/ SoloditFinding.issues_issuetagscore f = None.

(** The five string filters of [search_findings]. *)
Inductive StringFilter : Type :=
  Keywords | Protocol | User | MinFinders | MaxFinders.

Definition string_argument (which : StringFilter) (args : SearchArgs.t)
  : option string :=
  match which with
  | Keywords => SearchArgs.keywords args
  | Protocol => SearchArgs.protocol args
  | User => SearchArgs.user args
  | MinFinders => SearchArgs.minFinders args
  | MaxFinders => SearchArgs.maxFinders args
  end.

Definition string_filter (which : StringFilter) (f : SoloditFilters.t)
  : option string :=
  match which with
  | Keywords => SoloditFilters.keywords f
  | Protocol => SoloditFilters.protocol f
  | User => SoloditFilters.user f
  | MinFinders => SoloditFilters.minFinders f
  | MaxFinders => SoloditFilters.maxFinders f
  end.

End FurtherVocabulary.

(** ** Integer-valued numbers

    An instance of [Number] for the numbers that are integers: they render
    in plain decimal, [toFixed] pads the fraction with zeros, and zero alone
    is falsy. The concrete runs below use it. *)
Module IntegerNumber.
Definition toString (z : Z) : string := NilZero.string_of_int (Z.to_int z).

Fixpoint zeros (d : nat) : string :=
  match d with
  | O => EmptyString
  | S d' => String "0" (zeros d')
  end.

Definition toFixed (z : Z) (d : nat) : string :=
  match d with
  | O => toString z
  | S _ => toString z ++ "." ++ zeros d
  end.

Definition integers : Number :=
  {| number := Z;
     number_truthy := fun z => negb (Z.eqb z 0);
     number_toString := toString;
     number_toFixed := toFixed;
     number_of_nat := Z.of_nat |}.
End IntegerNumber.

(** ** Sample data for the concrete runs *)
Module Sample.
#[local] Existing Instance IntegerNumber.integers.

Definition finder (h : string) : SoloditFinding.IssueFinder :=
  SoloditFinding.mkIssueFinder (SoloditFinding.mkWarden h).

Definition tag (t : string) : SoloditFinding.IssueTagScore :=
  SoloditFinding.mkIssueTagScore (SoloditFinding.Tag.mk t).

(** A finding without summary whose content is three characters long. *)
Definition finding : SoloditFinding.t :=
  {| SoloditFinding.id := "8812";
     SoloditFinding.slug := "reentrancy-in-withdraw";
     SoloditFinding.title := "Reentrancy in withdraw";
     SoloditFinding.content := "abc";
     SoloditFinding.summary := None;
     SoloditFinding.impact := HIGH;
     SoloditFinding.quality_score := 4%Z;
     SoloditFinding.general_score := 3%Z;
     SoloditFinding.report_date := Some "2024-01-15";
     SoloditFinding.firm_name := Some "Cyfrin";
     SoloditFinding.protocol_name := None;
     SoloditFinding.finders_count := 2%Z;
     SoloditFinding.source_link := None;
     SoloditFinding.issues_issue_finders := Some [finder "alice"; finder "bob"];
     SoloditFinding.issues_issuetagscore := Some [] |}.

(** The finding with its tag list [null]. *)
Definition finding_null_tags : SoloditFinding.t :=
  {| SoloditFinding.id := "8812";
     SoloditFinding.slug := "reentrancy-in-withdraw";
     SoloditFinding.title := "Reentrancy in withdraw";
     SoloditFinding.content := "abc";
     SoloditFinding.summary := None;
     SoloditFinding.impact := HIGH;
     SoloditFinding.quality_score := 4%Z;
     SoloditFinding.general_score := 3%Z;
     SoloditFinding.report_date := Some "2024-01-15";
     SoloditFinding.firm_name := Some "Cyfrin";
     SoloditFinding.protocol_name := None;
     SoloditFinding.finders_count := 2%Z;
     SoloditFinding.source_link := None;
     SoloditFinding.issues_issue_finders := Some [finder "alice"; finder "bob"];
     SoloditFinding.issues_issuetagscore := None |}.

(** Arguments of [search_findings] with no field at all. *)
Definition no_args : SearchArgs.t :=
  SearchArgs.mk None None None None None None None None None
                None None None None None None None None.

(** [{ keywords: "" }] *)
Definition empty_keywords : SearchArgs.t :=
  SearchArgs.mk (Some "") None None None None None None None None
                None None None None None None None None.

(** [{ user: "" }] *)
Definition empty_user : SearchArgs.t :=
  SearchArgs.mk None None None None None None None (Some "") None
                None None None None None None None None.

(** [{ tags: [] }] *)
Definition no_tags : SearchArgs.t :=
  SearchArgs.mk None None None (Some []) None None None None None
                None None None None None None None None.

(** [{ firms: ["Cyfrin", "Sherlock"] }] *)
Definition two_firms : SearchArgs.t :=
  SearchArgs.mk None None (Some ["Cyfrin"; "Sherlock"]) None None None None
                None None None None None None None None None None.

(** [{ qualityScore: 0 }] *)
Definition zero_quality : SearchArgs.t :=
  SearchArgs.mk None None None None None None None None None
                None None (Some 0%Z) None None None None None.

Definition response (fs : list SoloditFinding.t) : SoloditResponse.t :=
  {| SoloditResponse.findings := fs;
     SoloditResponse.metadata :=
       SoloditResponse.mkMetadata 42%Z 1%Z 20%Z 3%Z 0%Z;
     SoloditResponse.rateLimit := SoloditResponse.mkRateLimit 20%Z 19%Z 0%Z |}.

(** The error body [{"message":"rate limited"}]. *)
Definition rate_limited : Js.value :=
  Js.Object [("message", Js.Str "rate limited")].

(** A remote side that answers every request the same way. *)
Definition always (r : Http.FetchResult) : Http.Request -> Http.FetchResult :=
  fun _ => r.

(** A text of [n] characters. *)
Fixpoint padding (n : nat) : string :=
  match n with
  | O => EmptyString
  | S n' => String "x" (padding n')
  end.

(** A finding without summary whose content is 600 characters long. *)
Definition long_finding : SoloditFinding.t :=
  {| SoloditFinding.id := "9001";
     SoloditFinding.slug := "oracle-price-manipulation";
     SoloditFinding.title := "Oracle price manipulation";
     SoloditFinding.content := padding 600;
     SoloditFinding.summary := None;
     SoloditFinding.impact := MEDIUM;
     SoloditFinding.quality_score := 5%Z;
     SoloditFinding.general_score := 2%Z;
     SoloditFinding.report_date := None;
     SoloditFinding.firm_name := Some "";
     SoloditFinding.protocol_name := Some "Lendr";
     SoloditFinding.finders_count := 1%Z;
     SoloditFinding.source_link := None;
     SoloditFinding.issues_issue_finders := Some [finder ""];
     SoloditFinding.issues_issuetagscore := Some [tag "Oracle"; tag "Price"] |}.

(** [{ keywords: "reentrancy", impact: ["HIGH", "MEDIUM"], minFinders: "",
      reportedDays: "90", qualityScore: 0, page: 2 }] *)
Definition mixed_args : SearchArgs.t :=
  SearchArgs.mk (Some "reentrancy") (Some [HIGH; MEDIUM]) None None None None
                None None (Some "") None (Some D90) (Some 0%Z) None None None
                (Some 2%Z) None.

(** A response whose second finding has a null tag list. *)
Definition flawed_response : SoloditResponse.t :=
  response [finding; finding_null_tags].

(** A response with two well-formed findings. *)
Definition page_response : SoloditResponse.t :=
  response [finding; long_finding].

(** A remote side that answers every request with this response. *)
Definition answering (r : SoloditResponse.t)
  : Http.Request -> Http.FetchResult :=
  always (Http.Responded (Http.Success (Some r))).

(** A remote side that answers every request with this failure. *)
Definition failing (status : nat) (statusText : string)
  (json : option Js.value) : Http.Request -> Http.FetchResult :=
  always (Http.Responded (Http.Failure status statusText json)).
End Sample.


(** ** Facts about strings and templates *)

Lemma append_assoc (a b c : string) : (a ++ b) ++ c = a ++ (b ++ c).
Proof.
  induction a as [|x a IH]; simpl; [reflexivity | now rewrite IH].
Qed.

Lemma substring_whole (s : string) :
  String.substring 0 (String.length s) s = s.
Proof.
  induction s as [|c s IH]; simpl; [reflexivity | now rewrite IH].
Qed.

(** [s.substring(0, n)] is [s] itself when [s] has at most [n] code units. *)
Lemma substring_short (s : string) (n : nat) :
  String.length s <= n -> Js.substring s 0 n = s.
Proof.
  intros Hle. unfold Js.substring.
  rewrite Nat.min_0_l, (Nat.min_r n (String.length s)) by exact Hle.
  rewrite Nat.min_0_l, Nat.max_0_l, Nat.sub_0_r.
  apply substring_whole.
Qed.

(** What precedes a part that survives [trimEnd] is left alone. *)
Lemma trimEnd_append (a b : string) :
  Js.trimEnd b <> "" -> Js.trimEnd (a ++ b) = a ++ Js.trimEnd b.
Proof.
  intros Hb. induction a as [|x a IH]; simpl; [reflexivity |].
  rewrite IH. destruct (a ++ Js.trimEnd b) eqn:E; [| reflexivity].
  destruct a; simpl in E; [contradiction | discriminate].
Qed.

Lemma trimEnd_final_space (s : string) (c : ascii) :
  Js.is_space c = true -> Js.trimEnd (s ++ String c "") = Js.trimEnd s.
Proof.
  intros Hc. induction s as [|x s IH]; simpl.
  - now rewrite Hc.
  - now rewrite IH.
Qed.

Lemma length_append (a b : string) :
  String.length (a ++ b) = String.length a + String.length b.
Proof.
  induction a as [|c a IH]; simpl; [reflexivity | now rewrite IH].
Qed.

Lemma length_substring_prefix (n : nat) (s : string) :
  String.length (String.substring 0 n s) = Nat.min n (String.length s).
Proof.
  revert n. induction s as [|c s IH]; intros [|n]; simpl; try reflexivity.
  now rewrite IH.
Qed.

Lemma substring_prefix_split (n : nat) (s : string) :
  exists rest : string, s = String.substring 0 n s ++ rest.
Proof.
  revert n. induction s as [|c s IH]; intros [|n]; simpl.
  - now exists "".
  - now exists "".
  - now exists (String c s).
  - destruct (IH n) as [rest Hrest]. exists rest. now rewrite <- Hrest.
Qed.

(** [s.substring(0, n)] is the prefix of [s] of length [min n |s|]. *)
Lemma substring_is_prefix (s : string) (n : nat) :
  String.length (Js.substring s 0 n) = Nat.min n (String.length s)
  /\ exists rest : string, s = Js.substring s 0 n ++ rest.
Proof.
  unfold Js.substring.
  rewrite !Nat.min_0_l, Nat.max_0_l, Nat.sub_0_r. split.
  - rewrite length_substring_prefix. lia.
  - apply substring_prefix_split.
Qed.

Lemma concat_cons2 (sep x y : string) (l : list string) :
  String.concat sep (x :: y :: l) = x ++ sep ++ String.concat sep (y :: l).
Proof. reflexivity. Qed.

Lemma concat_snoc (sep : string) (l : list string) (x y : string) :
  String.concat sep ((x :: l) ++ [y])%list
  = String.concat sep (x :: l) ++ sep ++ y.
Proof.
  revert x. induction l as [|z l IH]; intros x.
  - reflexivity.
  - change (String.concat sep (x :: ((z :: l) ++ [y])%list)
            = String.concat sep (x :: z :: l) ++ sep ++ y).
    simpl ((z :: l) ++ [y])%list.
    rewrite !concat_cons2.
    change (String.concat sep (z :: (l ++ [y])%list))
      with (String.concat sep ((z :: l) ++ [y])%list).
    rewrite IH. now rewrite !append_assoc.
Qed.

Section Templates.
Context `{Number}.

(** A template literal that opens with a line break, then a character that
    is no white space, and closes with a line break: [trim] removes the
    first line break and trims the end. *)
Lemma trim_template (c : ascii) (h : string) (body : list string) (t : string) :
  Js.is_space c = false ->
  Js.trim (lines ("" :: String c h :: (body ++ [t; ""])%list))
  = Js.trimEnd (lines (String c h :: (body ++ [t])%list)).
Proof.
  intros Hc. unfold Js.trim, lines, Js.join.
  rewrite concat_cons2.
  change ("" ++ Js.nl ++ ?x) with (String (ascii_of_nat 10) x).
  assert (Hsplit : (String c h :: (body ++ [t; ""]))%list
                   = ((String c h :: (body ++ [t])) ++ [""])%list).
  { simpl. now rewrite <- app_assoc. }
  rewrite Hsplit, concat_snoc.
  assert (Hhead : exists r,
             String.concat Js.nl (String c h :: (body ++ [t])%list)
             = String c r).
  { destruct (body ++ [t])%list; simpl; eauto. }
  destruct Hhead as [r Hr]. rewrite Hr.
  simpl Js.trimStart. rewrite Hc.
  change (Js.nl ++ "") with (String (ascii_of_nat 10) "").
  change (String c (r ++ String (ascii_of_nat 10) ""))
    with (String c r ++ String (ascii_of_nat 10) "").
  now rewrite trimEnd_final_space.
Qed.

(** A template whose last line is the rule [---] loses nothing at the end. *)
Lemma trimEnd_rule (x : string) (body : list string) :
  Js.trimEnd (lines ((x :: body) ++ ["---"])%list)
  = lines ((x :: body) ++ ["---"])%list.
Proof.
  unfold lines, Js.join. rewrite concat_snoc.
  rewrite <- append_assoc.
  rewrite trimEnd_append; [reflexivity | discriminate].
Qed.

End Templates.

(** ** The result formatter *)

Section Formatter.
Context `{Number}.

(** The text [formatFinding] returns for a finding whose two nested lists
    are arrays: heading, field table, body excerpt and rule. *)
Lemma formatFinding_returns (f : SoloditFinding.t)
  (fs : list SoloditFinding.IssueFinder) (ts : list SoloditFinding.IssueTagScore) :
  SoloditFinding.issues_issue_finders f = Some fs ->
  SoloditFinding.issues_issuetagscore f = Some ts ->
  formatFinding f
  = Js.Returned (lines (
      [ ("## [" ++ Impact_toString (SoloditFinding.impact f) ++ "] "
           ++ SoloditFinding.title f)%string;
        "" ]
      ++ map field_line
           (formatFinding_fields f (joined_handles fs) (joined_titles ts))
      ++ [ ""; body_excerpt f; ""; "---" ])%list).
Proof.
  intros Hfs Hts. unfold formatFinding. rewrite Hfs, Hts.
  cbv beta iota delta [array_map Js.obind].
  fold (joined_handles fs). fold (joined_titles ts).
  set (rows := map field_line _).
  set (title := "] " ++ SoloditFinding.title f).
  f_equal.
  assert (Hin : ([ "";
                   ("## [" ++ Impact_toString (SoloditFinding.impact f) ++ title)%string;
                   "" ] ++ rows ++ [ ""; body_excerpt f; ""; "---"; "" ])%list
                = ("" :: String "#" ("# [" ++ Impact_toString (SoloditFinding.impact f)
                                      ++ title)%string
                      :: (("" :: rows ++ [ ""; body_excerpt f; "" ])
                            ++ [ "---"; "" ]))%list).
  { simpl. rewrite <- ?app_assoc. reflexivity. }
  rewrite Hin, trim_template by reflexivity.
  assert (Hout : (String "#" ("# [" ++ Impact_toString (SoloditFinding.impact f)
                                ++ title)%string
                    :: (("" :: rows ++ [ ""; body_excerpt f; "" ]) ++ [ "---" ]))%list
                 = ((String "#" ("# [" ++ Impact_toString (SoloditFinding.impact f)
                                   ++ title)%string
                      :: "" :: rows ++ [ ""; body_excerpt f; "" ]) ++ [ "---" ])%list).
  { reflexivity. }
  rewrite Hout, trimEnd_rule.
  f_equal; simpl; rewrite <- ?app_assoc; reflexivity.
Qed.

(** The text of the detail template for such a finding: heading, field
    table, rule, then the whole content under its own heading; [trim] can
    only remove white space that ends the content. *)
Lemma formattedFinding_returns (f : SoloditFinding.t)
  (fs : list SoloditFinding.IssueFinder) (ts : list SoloditFinding.IssueTagScore) :
  SoloditFinding.issues_issue_finders f = Some fs ->
  SoloditFinding.issues_issuetagscore f = Some ts ->
  formattedFinding f
  = Js.Returned (Js.trimEnd (lines (
      [ ("# " ++ SoloditFinding.title f)%string; "" ]
      ++ map field_line
           (formattedFinding_fields f (joined_handles fs) (joined_titles ts))
      ++ [ ""; "---"; ""; "## Content"; ""; SoloditFinding.content f ])%list)).
Proof.
  intros Hfs Hts. unfold formattedFinding. rewrite Hfs, Hts.
  cbv beta iota delta [array_map Js.obind].
  fold (joined_handles fs). fold (joined_titles ts).
  set (rows := map field_line _).
  f_equal.
  assert (Hin : ([ ""; ("# " ++ SoloditFinding.title f)%string; "" ] ++ rows
                 ++ [ ""; "---"; ""; "## Content"; ""; SoloditFinding.content f; "" ])%list
                = ("" :: String "#" (" " ++ SoloditFinding.title f)%string
                      :: (("" :: rows ++ [ ""; "---"; ""; "## Content"; "" ])
                            ++ [ SoloditFinding.content f; "" ]))%list).
  { simpl. rewrite <- ?app_assoc. reflexivity. }
  rewrite Hin, trim_template by reflexivity.
  f_equal; simpl; rewrite <- ?app_assoc; reflexivity.
Qed.

(** With a summary that is null or empty, the text of [formatFinding] has,
    between the field table and the rule, the first 500 characters of the
    content (all of it when it is shorter) followed by the marker. *)
Lemma formatFinding_renders_excerpt (f : SoloditFinding.t)
  (fs : list SoloditFinding.IssueFinder) (ts : list SoloditFinding.IssueTagScore) :
  SoloditFinding.summary f = None \/ SoloditFinding.summary f = Some "" ->
  SoloditFinding.issues_issue_finders f = Some fs ->
  SoloditFinding.issues_issuetagscore f = Some ts ->
  exists shown rest : string,
    SoloditFinding.content f = shown ++ rest
    /\ String.length shown
       = Nat.min 500 (String.length (SoloditFinding.content f))
    /\ body_excerpt f = shown ++ "..."
    /\ formatFinding f
       = Js.Returned (lines (
           [ ("## [" ++ Impact_toString (SoloditFinding.impact f) ++ "] "
                ++ SoloditFinding.title f)%string;
             "" ]
           ++ map field_line
                (formatFinding_fields f (joined_handles fs) (joined_titles ts))
           ++ [ ""; (shown ++ "...")%string; ""; "---" ])%list).
Proof.
  intros Hsum Hfs Hts.
  assert (Hex : body_excerpt f
                = Js.substring (SoloditFinding.content f) 0 500 ++ "...").
  { unfold body_excerpt. destruct Hsum as [-> | ->]; reflexivity. }
  destruct (substring_is_prefix (SoloditFinding.content f) 500)
    as [Hlen [rest Hrest]].
  exists (Js.substring (SoloditFinding.content f) 0 500), rest.
  split; [exact Hrest |]. split; [exact Hlen |]. split; [exact Hex |].
  rewrite (formatFinding_returns f fs ts Hfs Hts). now rewrite Hex.
Qed.

(** A prefix as long as the whole is the whole. *)
Lemma prefix_of_full_length (shown rest s : string) :
  s = shown ++ rest -> String.length shown = String.length s -> shown = s.
Proof.
  intros Hs Hlen. rewrite Hs, length_append in Hlen.
  destruct rest as [|c rest]; [| simpl in Hlen; lia].
  rewrite Hs. clear. induction shown as [|x a IH]; simpl;
    [reflexivity | now rewrite <- IH].
Qed.

(** C2 (amended). For every Finding with null summary rendered in list
    mode, the body excerpt is the first 500 characters of the content
    followed by the truncation marker; when the content has at most 500
    characters (exactly 500, or fewer), the excerpt is the whole content
    followed by the truncation marker, and that is the text [formatFinding]
    puts between the field table and the rule. *)
Theorem null_summary_excerpt_keeps_marker (f : SoloditFinding.t)
  (fs : list SoloditFinding.IssueFinder) (ts : list SoloditFinding.IssueTagScore) :
  SoloditFinding.summary f = None ->
  SoloditFinding.issues_issue_finders f = Some fs ->
  SoloditFinding.issues_issuetagscore f = Some ts ->
  exists shown rest : string,
    SoloditFinding.content f = shown ++ rest
    /\ String.length shown
       = Nat.min 500 (String.length (SoloditFinding.content f))
    /\ (String.length (SoloditFinding.content f) <= 500 ->
        shown = SoloditFinding.content f)
    /\ body_excerpt f = shown ++ "..."
    /\ formatFinding f
       = Js.Returned (lines (
           [ ("## [" ++ Impact_toString (SoloditFinding.impact f) ++ "] "
                ++ SoloditFinding.title f)%string;
             "" ]
           ++ map field_line
                (formatFinding_fields f (joined_handles fs) (joined_titles ts))
           ++ [ ""; (shown ++ "...")%string; ""; "---" ])%list).
Proof.
  intros Hsum Hfs Hts.
  destruct (formatFinding_renders_excerpt f fs ts (or_introl Hsum) Hfs Hts)
    as [shown [rest [Hsplit [Hlen [Hex Hout]]]]].
  exists shown, rest.
  split; [exact Hsplit |]. split; [exact Hlen |].
  split; [| split; [exact Hex | exact Hout]].
  intros Hshort. apply (prefix_of_full_length shown rest _ Hsplit). lia.
Qed.

(** C10. For every Finding whose summary is the empty string,
    [formatFinding] does not render the summary: its whole result is the
    one of the same finding with a null summary, and the body it renders
    between the field table and the rule is the first 500 characters of
    the content (all of it when it is shorter) followed by the truncation
    marker. *)
Theorem empty_summary_falls_back (f : SoloditFinding.t) :
  SoloditFinding.summary f = Some "" ->
  body_excerpt f = Js.substring (SoloditFinding.content f) 0 500 ++ "..."
  /\ body_excerpt f = body_excerpt (with_summary None f)
  /\ formatFinding f = formatFinding (with_summary None f)
  /\ forall (fs : list SoloditFinding.IssueFinder)
            (ts : list SoloditFinding.IssueTagScore),
       SoloditFinding.issues_issue_finders f = Some fs ->
       SoloditFinding.issues_issuetagscore f = Some ts ->
       exists shown rest : string,
         SoloditFinding.content f = shown ++ rest
         /\ String.length shown
            = Nat.min 500 (String.length (SoloditFinding.content f))
         /\ formatFinding f
            = Js.Returned (lines (
                [ ("## [" ++ Impact_toString (SoloditFinding.impact f) ++ "] "
                     ++ SoloditFinding.title f)%string;
                  "" ]
                ++ map field_line
                     (formatFinding_fields f (joined_handles fs)
                        (joined_titles ts))
                ++ [ ""; (shown ++ "...")%string; ""; "---" ])%list).
Proof.
  intros Hsum. split; [| split; [| split]].
  - unfold body_excerpt. now rewrite Hsum.
  - destruct f; simpl in Hsum; subst; reflexivity.
  - destruct f; simpl in Hsum; subst; reflexivity.
  - intros fs ts Hfs Hts.
    destruct (formatFinding_renders_excerpt f fs ts (or_intror Hsum) Hfs Hts)
      as [shown [rest [Hsplit [Hlen [_ Hout]]]]].
    exists shown, rest. auto.
Qed.

(** C8 (amended). For every Finding (its nested lists being arrays), the ten
    rows ID, Slug, Protocol, Audit Firm, Quality Score, Rarity Score, Report
    Date, Finders, Tags and Source are the same rows, with the same values
    and in the same order, in the list-mode block and in the detail-mode
    rendering; the detail-mode table has one row more, Impact, between Slug
    and Protocol. The two renderings differ besides in the heading (impact
    and title, or title alone) and in the body (the excerpt before the rule,
    or the whole content under its own heading after the rule). *)
Theorem detail_table_is_list_table_plus_impact (f : SoloditFinding.t)
  (fs : list SoloditFinding.IssueFinder) (ts : list SoloditFinding.IssueTagScore) :
  SoloditFinding.issues_issue_finders f = Some fs ->
  SoloditFinding.issues_issuetagscore f = Some ts ->
  exists rows : list (string * string),
    map fst rows = list_labels
    /\ formatFinding f
       = Js.Returned (lines (
           [ ("## [" ++ Impact_toString (SoloditFinding.impact f) ++ "] "
                ++ SoloditFinding.title f)%string;
             "" ]
           ++ map field_line rows
           ++ [ ""; body_excerpt f; ""; "---" ])%list)
    /\ formattedFinding f
       = Js.Returned (Js.trimEnd (lines (
           [ ("# " ++ SoloditFinding.title f)%string; "" ]
           ++ map field_line
                (firstn 2 rows
                 ++ ("Impact", Impact_toString (SoloditFinding.impact f))
                 :: skipn 2 rows)
           ++ [ ""; "---"; ""; "## Content"; ""; SoloditFinding.content f ])%list)).
Proof.
  intros Hfs Hts.
  exists (formatFinding_fields f (joined_handles fs) (joined_titles ts)).
  split; [reflexivity |]. split.
  - exact (formatFinding_returns f fs ts Hfs Hts).
  - exact (formattedFinding_returns f fs ts Hfs Hts).
Qed.

(** C9 (amended). For every Finding whose finder and tag lists are arrays,
    as its declared type says, [formatFinding] returns a text; every label
    line of the field table is present, whichever values are absent; an
    empty finder list renders the placeholder "N/A" in the Finders row and
    an empty tag list renders it in the Tags row. *)
Theorem formatFinding_total_on_arrays (f : SoloditFinding.t)
  (fs : list SoloditFinding.IssueFinder) (ts : list SoloditFinding.IssueTagScore) :
  SoloditFinding.issues_issue_finders f = Some fs ->
  SoloditFinding.issues_issuetagscore f = Some ts ->
  exists rows : list (string * string),
    formatFinding f
    = Js.Returned (lines (
        [ ("## [" ++ Impact_toString (SoloditFinding.impact f) ++ "] "
             ++ SoloditFinding.title f)%string;
          "" ]
        ++ map field_line rows
        ++ [ ""; body_excerpt f; ""; "---" ])%list)
    /\ map fst rows = list_labels
    /\ (fs = [] ->
        In ("Finders",
            "N/A (" ++ number_toString (SoloditFinding.finders_count f)
            ++ " total)") rows)
    /\ (ts = [] -> In ("Tags", "N/A") rows).
Proof.
  intros Hfs Hts.
  exists (formatFinding_fields f (joined_handles fs) (joined_titles ts)).
  split; [exact (formatFinding_returns f fs ts Hfs Hts) |].
  split; [reflexivity |]. split.
  - intros ->. unfold formatFinding_fields. simpl. tauto.
  - intros ->. unfold formatFinding_fields. simpl. tauto.
Qed.

End Formatter.

(** ** The filter builder *)

Section FilterBuilder.
Context `{Number}.

Lemma key_of_string_argument (name : string) (x : option string) :
  SoloditFilters.key_if name (when_truthy x) = key_if_nonempty name x.
Proof. destruct x as [[|c s]|]; reflexivity. Qed.

Lemma key_of_wrapped_list (name : string) (x : option (list string)) :
  SoloditFilters.key_if name (option_map wrap_values x)
  = SoloditFilters.key_if name x.
Proof. destruct x; reflexivity. Qed.

Lemma map_key_if {A} (g : string -> string) (name : string) (x : option A) :
  map g (SoloditFilters.key_if name x) = SoloditFilters.key_if (g name) x.
Proof. destruct x; reflexivity. Qed.

Lemma map_key_if_nonempty (g : string -> string) (name : string)
  (x : option string) :
  map g (key_if_nonempty name x) = key_if_nonempty (g name) x.
Proof. destruct x as [[|c s]|]; reflexivity. Qed.

(** The keys of the filters object are the arguments supplied with a value
    other than the empty string, each under its filter key. *)
Lemma keys_build_filters (args : SearchArgs.t) :
  SoloditFilters.keys (build_filters args)
  = map filter_key (nonempty_filters args).
Proof.
  unfold SoloditFilters.keys, build_filters, nonempty_filters.
  cbn [SoloditFilters.keywords SoloditFilters.impact SoloditFilters.firms
       SoloditFilters.tags SoloditFilters.protocol
       SoloditFilters.protocolCategory SoloditFilters.forked
       SoloditFilters.languages SoloditFilters.user SoloditFilters.minFinders
       SoloditFilters.maxFinders SoloditFilters.reported
       SoloditFilters.reportedAfter SoloditFilters.qualityScore
       SoloditFilters.rarityScore SoloditFilters.sortField
       SoloditFilters.sortDirection].
  rewrite !map_app, !map_key_if, !map_key_if_nonempty.
  rewrite !key_of_string_argument, !key_of_wrapped_list.
  destruct (SearchArgs.reportedDays args); reflexivity.
Qed.

Lemma nonempty_filters_supplied (args : SearchArgs.t) :
  supplied_filters args = [] -> nonempty_filters args = [].
Proof.
  destruct args as [kw im fi ta pr pc la us mi ma rd qs rs sf sd pg ps].
  unfold supplied_filters, nonempty_filters.
  cbn [SearchArgs.keywords SearchArgs.impact SearchArgs.firms SearchArgs.tags
       SearchArgs.protocol SearchArgs.protocolCategory SearchArgs.languages
       SearchArgs.user SearchArgs.minFinders SearchArgs.maxFinders
       SearchArgs.reportedDays SearchArgs.qualityScore SearchArgs.rarityScore
       SearchArgs.sortField SearchArgs.sortDirection].
  intros Hnone.
  repeat match type of Hnone with
         | context [SoloditFilters.key_if _ ?x] =>
             is_var x; destruct x; [discriminate Hnone | simpl in Hnone]
         end.
  reflexivity.
Qed.

Lemma filters_of_search_request (args : SearchArgs.t) :
  SoloditRequest.filters (search_request args)
  = match nonempty_filters args with
    | [] => None
    | _ :: _ => Some (build_filters args)
    end.
Proof.
  unfold search_request. cbn [SoloditRequest.filters].
  rewrite keys_build_filters, length_map.
  destruct (nonempty_filters args); reflexivity.
Qed.

(** C1 (amended). For every input to [search_findings] with zero filter
    fields set, the request has no [filters] key at all; and for every
    input with at least one filter field set to a value other than the
    empty string, the [filters] key is present, its object holding the keys
    of those fields. *)
Theorem filters_key_presence (args : SearchArgs.t) :
  (supplied_filters args = [] ->
   SoloditRequest.filters (search_request args) = None)
  /\ (nonempty_filters args <> [] ->
      exists f : SoloditFilters.t,
        SoloditRequest.filters (search_request args) = Some f
        /\ SoloditFilters.keys f = map filter_key (nonempty_filters args)).
Proof.
  rewrite filters_of_search_request. split.
  - intros Hnone. now rewrite (nonempty_filters_supplied args Hnone).
  - intros Hsome. destruct (nonempty_filters args) as [|k ks] eqn:E.
    + contradiction.
    + exists (build_filters args). split; [reflexivity |].
      now rewrite keys_build_filters, E.
Qed.

(** C4 (amended). For every input to [search_findings] with exactly one
    filter field set, to any value admitted by the input schema other than
    the empty string (zero and the empty list included), the request's
    filters object has exactly one key, the one of that field. *)
Theorem single_filter_single_key (args : SearchArgs.t) (k : string) :
  supplied_filters args = [k] ->
  nonempty_filters args = [k] ->
  exists f : SoloditFilters.t,
    SoloditRequest.filters (search_request args) = Some f
    /\ SoloditFilters.keys f = [filter_key k].
Proof.
  intros _ Hone. rewrite filters_of_search_request, Hone.
  exists (build_filters args). split; [reflexivity |].
  now rewrite keys_build_filters, Hone.
Qed.

Lemma filters_present_of_key (args : SearchArgs.t) (k : string) :
  In k (SoloditFilters.keys (build_filters args)) ->
  SoloditRequest.filters (search_request args) = Some (build_filters args).
Proof.
  intros Hin. unfold search_request. cbn [SoloditRequest.filters].
  destruct (SoloditFilters.keys (build_filters args)); [destruct Hin | reflexivity].
Qed.

(** C6. For every free-text list filter input (firms, tags,
    protocolCategory, languages) of length N, the wrapped list in the
    filters object has length N, and the element at each index is a record
    whose [value] is the input element at that index and whose reserved
    [label] is absent: it has no other key. *)
Theorem free_text_lists_wrapped (which : FreeTextList) (args : SearchArgs.t)
  (xs : list string) :
  list_argument which args = Some xs ->
  exists (f : SoloditFilters.t) (ws : list ValueLabel),
    SoloditRequest.filters (search_request args) = Some f
    /\ list_filter which f = Some ws
    /\ List.length ws = List.length xs
    /\ forall (i : nat) (x : string),
         nth_error xs i = Some x ->
         nth_error ws i = Some {| value := x; label := None |}.
Proof.
  intros Harg.
  exists (build_filters args), (wrap_values xs).
  split; [| split; [| split]].
  - destruct which; simpl in Harg;
      [ apply (filters_present_of_key args "firms")
      | apply (filters_present_of_key args "tags")
      | apply (filters_present_of_key args "protocolCategory")
      | apply (filters_present_of_key args "languages") ];
      unfold SoloditFilters.keys, build_filters;
      cbn [SoloditFilters.firms SoloditFilters.tags
           SoloditFilters.protocolCategory SoloditFilters.languages];
      rewrite Harg; rewrite !in_app_iff; simpl; tauto.
  - destruct which; simpl in Harg |- *; now rewrite Harg.
  - unfold wrap_values. apply length_map.
  - intros i x Hx. unfold wrap_values.
    rewrite nth_error_map, Hx. reflexivity.
Qed.

End FilterBuilder.

(** ** The remote query and the two tools *)

Section Remote.
Context `{Number}.

Lemma run_fetch {A} (remote : Http.Request -> Http.FetchResult)
  (req : Http.Request) (k : Http.FetchResult -> io A) :
  run remote (Fetch req k)
  = (req :: fst (run remote (k (remote req))),
     snd (run remote (k (remote req)))).
Proof. simpl. destruct (run remote (k (remote req))); reflexivity. Qed.

(** The requests of a sequence are those of its first part, then those of
    what follows it. *)
Lemma run_bind {A B} (remote : Http.Request -> Http.FetchResult)
  (m : io A) (k : A -> io B) :
  run remote (bind m k)
  = match snd (run remote m) with
    | Js.Returned a =>
        (fst (run remote m) ++ fst (run remote (k a)), snd (run remote (k a)))%list
    | Js.Thrown e => (fst (run remote m), Js.Thrown e)
    end.
Proof.
  induction m as [a | e | req k' IH]; cbn [bind].
  - simpl. now destruct (run remote (k a)).
  - reflexivity.
  - rewrite !run_fetch, IH. cbn [fst snd].
    destruct (snd (run remote (k' (remote req)))); reflexivity.
Qed.

(** A step without [fetch] adds no request. *)
Lemma run_lift_bind {A B} (remote : Http.Request -> Http.FetchResult)
  (o : outcome A) (k : A -> io B) :
  run remote (bind (lift o) k)
  = match o with
    | Js.Returned a => run remote (k a)
    | Js.Thrown e => ([], Js.Thrown e)
    end.
Proof. destruct o; reflexivity. Qed.

Lemma searchSoloditFindings_without_key (env : option string)
  (request : SoloditRequest.t) :
  Js.truthy (SOLODIT_API_KEY env) = false ->
  searchSoloditFindings env request = Throw (Js.Error missing_key_message).
Proof. intros Hkey. unfold searchSoloditFindings. now rewrite Hkey. Qed.

(** With a key, [searchSoloditFindings] posts the request once and ends as
    the answer decides. *)
Lemma searchSoloditFindings_with_key (env : option string)
  (request : SoloditRequest.t) (remote : Http.Request -> Http.FetchResult) :
  Js.truthy (SOLODIT_API_KEY env) = true ->
  exists req : Http.Request,
    is_post_of env request req
    /\ run remote (searchSoloditFindings env request)
       = ([req],
          match remote req with
          | Http.Unreachable => Js.Thrown Js.Rejected
          | Http.Responded (Http.Success None) => Js.Thrown Js.Rejected
          | Http.Responded (Http.Success (Some response)) => Js.Returned response
          | Http.Responded (Http.Failure status statusText json) =>
              Js.obind
                (error_detail
                   (match json with Some v => v | None => Js.Object [] end)
                   statusText)
                (fun detail =>
                   Js.Thrown (Js.Error ("Solodit API error ("
                                        ++ Js.nat_toString status ++ "): "
                                        ++ detail)))
          end).
Proof.
  intros Hkey. unfold searchSoloditFindings. rewrite Hkey. cbn [negb].
  match goal with |- context [Fetch ?r _] => exists r end.
  split; [repeat split |].
  rewrite run_fetch.
  match goal with |- context [remote ?r] => destruct (remote r) as [|[[resp|]|status statusText json]] end;
    try reflexivity.
  rewrite run_lift_bind.
  destruct (error_detail _ statusText); reflexivity.
Qed.

(** C5. Whenever the API key configuration value is absent or the empty
    string, every invocation of [searchSoloditFindings], and so of both
    tools, fails with the configuration error, and no outbound request is
    issued. *)
Theorem missing_api_key_fails_before_fetch (env : option string)
  (remote : Http.Request -> Http.FetchResult) (request : SoloditRequest.t)
  (args : SearchArgs.t) (keywords : string) :
  env = None \/ env = Some "" ->
  run remote (searchSoloditFindings env request)
  = ([], Js.Thrown (Js.Error missing_key_message))
  /\ run remote (search_findings env args)
     = ([], Js.Thrown (Js.Error missing_key_message))
  /\ run remote (get_finding_by_id env keywords)
     = ([], Js.Thrown (Js.Error missing_key_message)).
Proof.
  intros Henv.
  assert (Hkey : Js.truthy (SOLODIT_API_KEY env) = false)
    by (destruct Henv as [-> | ->]; reflexivity).
  unfold search_findings, get_finding_by_id.
  rewrite !searchSoloditFindings_without_key by exact Hkey.
  repeat split; reflexivity.
Qed.


(** C7. For every keywords string, the one request [get_finding_by_id]
    issues (the API key being configured) is the POST of
    [{page: 1, pageSize: 1, filters: {keywords}}]; and whenever the
    response contains zero findings, its output is the fixed not-found
    message ending with the caller's keywords string verbatim, and nothing
    else: no field table is rendered. *)
Theorem get_finding_by_id_request_and_not_found (env : option string)
  (keywords : string) (remote : Http.Request -> Http.FetchResult) :
  Js.truthy (SOLODIT_API_KEY env) = true ->
  (exists (req : Http.Request) (f : SoloditFilters.t),
      fst (run remote (get_finding_by_id env keywords)) = [req]
      /\ is_post_of env
           {| SoloditRequest.page := Some (number_of_nat 1);
              SoloditRequest.pageSize := Some (number_of_nat 1);
              SoloditRequest.filters := Some f |} req
      /\ SoloditFilters.keys f = ["keywords"]
      /\ SoloditFilters.keywords f = Some keywords)
  /\ (forall response : SoloditResponse.t,
        (forall req : Http.Request,
           is_post_of env (lookup_request keywords) req ->
           remote req = Http.Responded (Http.Success (Some response))) ->
        SoloditResponse.findings response = [] ->
        snd (run remote (get_finding_by_id env keywords))
        = Js.Returned
            {| content :=
                 [ {| type := "text";
                      text := "No finding found with ID or slug: "
                              ++ keywords |} ] |}).
Proof.
  intros Hkey.
  destruct (searchSoloditFindings_with_key env (lookup_request keywords)
              remote Hkey) as [req [Hpost Hrun]].
  assert (Hcalls : fst (run remote (get_finding_by_id env keywords)) = [req]).
  { unfold get_finding_by_id. rewrite run_bind, Hrun. cbn [fst snd].
    destruct (remote req) as [|[[resp|]|status statusText json]];
      cbn [Js.obind]; try reflexivity.
    - destruct (SoloditResponse.findings resp) as [|finding rest];
        [reflexivity |].
      rewrite run_lift_bind. destruct (formattedFinding finding); reflexivity.
    - destruct (error_detail _ statusText); reflexivity. }
  split.
  - exists req. eexists. split; [exact Hcalls |].
    split; [exact Hpost | split; reflexivity].
  - intros response Hremote Hnone.
    unfold get_finding_by_id. rewrite run_bind, Hrun, (Hremote req Hpost).
    cbn [fst snd]. rewrite Hnone. reflexivity.
Qed.

End Remote.


(** ** Further properties of the filter builder *)

Section FilterBuilderInvariants.
Context `{Number}.

Lemma key_if_nonempty_incl (name : string) (x : option string) :
  incl (key_if_nonempty name x) (SoloditFilters.key_if name x).
Proof.
  destruct x as [[|c s]|]; simpl; auto using incl_refl, incl_nil_l.
Qed.

Lemma nonempty_filters_incl (args : SearchArgs.t) :
  incl (nonempty_filters args) (supplied_filters args).
Proof.
  unfold nonempty_filters, supplied_filters.
  repeat apply incl_app_app;
    solve [apply incl_refl | apply key_if_nonempty_incl].
Qed.

Lemma filters_some_inv (args : SearchArgs.t) (f : SoloditFilters.t) :
  SoloditRequest.filters (search_request args) = Some f ->
  f = build_filters args.
Proof.
  rewrite filters_of_search_request.
  destruct (nonempty_filters args); [discriminate | now intros [= <-]].
Qed.

(** X1. The filters object never holds a key the caller did not supply: each
    of its keys is the filter key of a supplied argument, and the keys
    [forked] and [reportedAfter], which no argument feeds, are never set. *)
Theorem filters_hold_only_supplied_keys (args : SearchArgs.t)
  (f : SoloditFilters.t) :
  SoloditRequest.filters (search_request args) = Some f ->
  (forall k : string,
     In k (SoloditFilters.keys f) ->
     exists a : string, In a (supplied_filters args) /\ k = filter_key a)
  /\ SoloditFilters.forked f = None
  /\ SoloditFilters.reportedAfter f = None.
Proof.
  intros Hf. apply filters_some_inv in Hf. subst f.
  split; [| split; reflexivity].
  intros k Hk. rewrite keys_build_filters in Hk.
  apply in_map_iff in Hk. destruct Hk as [a [Hka Ha]].
  exists a. split; [now apply nonempty_filters_incl | now symmetry].
Qed.

(** X2. The values of the filters object are the caller's: a string filter is
    set exactly when its argument is a non-empty string, and to that
    string; the impact list, the two scores and the sort options are
    copied as they are (zero and the empty list included); [reported]
    wraps the chosen period, never the value "after", and never sets a
    label. *)
Theorem filters_hold_the_supplied_values (args : SearchArgs.t)
  (f : SoloditFilters.t) :
  SoloditRequest.filters (search_request args) = Some f ->
  (forall (which : StringFilter) (k : string),
     string_filter which f = Some k
     <-> string_argument which args = Some k /\ k <> "")
  /\ SoloditFilters.impact f = SearchArgs.impact args
  /\ SoloditFilters.qualityScore f = SearchArgs.qualityScore args
  /\ SoloditFilters.rarityScore f = SearchArgs.rarityScore args
  /\ SoloditFilters.sortField f = SearchArgs.sortField args
  /\ SoloditFilters.sortDirection f = SearchArgs.sortDirection args
  /\ (forall r : ReportedFilter.t,
        SoloditFilters.reported f = Some r ->
        ReportedFilter.value r <> Rafter
        /\ ReportedFilter.label r = None
        /\ exists d : ReportedDays,
             SearchArgs.reportedDays args = Some d
             /\ ReportedFilter.value r = Reported_of_days d).
Proof.
  intros Hf. apply filters_some_inv in Hf. subst f.
  split; [| repeat split; try reflexivity].
  - intros which k.
    assert (Hw : forall x : option string,
               when_truthy x = Some k <-> x = Some k /\ k <> "").
    { intros [[|c s]|]; simpl; split; try discriminate.
      - intros [[= <-] Hne]. now contradiction Hne.
      - intros [= <-]. split; [reflexivity | discriminate].
      - now intros [[= <-] _].
      - now intros [Hx _]. }
    destruct which; cbn [string_filter string_argument build_filters
      SoloditFilters.keywords SoloditFilters.protocol SoloditFilters.user
      SoloditFilters.minFinders SoloditFilters.maxFinders]; apply Hw.
  - cbn [build_filters SoloditFilters.reported] in H0.
    destruct (SearchArgs.reportedDays args) as [d|]; [| discriminate].
    injection H0 as <-. destruct d; discriminate.
  - cbn [build_filters SoloditFilters.reported] in H0.
    destruct (SearchArgs.reportedDays args) as [d|]; [| discriminate].
    now injection H0 as <-.
  - cbn [build_filters SoloditFilters.reported] in H0.
    destruct (SearchArgs.reportedDays args) as [d|]; [| discriminate].
    injection H0 as <-. now exists d.
Qed.

(** X3. The request of [search_findings] always carries [page] and [pageSize]:
    the caller's value when it is supplied and truthy, and 1 and 20 when it
    is absent (or falsy). *)
Theorem search_request_pagination (args : SearchArgs.t) :
  exists p s : number,
    SoloditRequest.page (search_request args) = Some p
    /\ SoloditRequest.pageSize (search_request args) = Some s
    /\ (SearchArgs.page args = None -> p = number_of_nat 1)
    /\ (SearchArgs.pageSize args = None -> s = number_of_nat 20)
    /\ (forall n : number,
          SearchArgs.page args = Some n ->
          p = if number_truthy n then n else number_of_nat 1)
    /\ (forall n : number,
          SearchArgs.pageSize args = Some n ->
          s = if number_truthy n then n else number_of_nat 20).
Proof.
  eexists. eexists. split; [reflexivity |]. split; [reflexivity |].
  repeat split; intros; unfold Js.or_else_number;
    match goal with Hx : _ = _ |- _ => now rewrite Hx end.
Qed.

End FilterBuilderInvariants.

(** ** Further properties of the result formatter *)

(** The comma-joined text of a list is empty only for the empty list and
    for the list of one empty string. *)
Lemma join_comma_cases (l : list string) :
  Js.or_else (Some (Js.join ", " l)) "N/A"
  = match l with
    | [] => "N/A"
    | [x] => Js.or_else (Some x) "N/A"
    | _ :: _ :: _ => Js.join ", " l
    end.
Proof.
  destruct l as [|x [|y r]]; try reflexivity.
  unfold Js.join. rewrite concat_cons2. destruct x; reflexivity.
Qed.

(** A tail that [trimEnd] removes altogether leaves the trimming of what
    precedes it. *)
Lemma trimEnd_drop_blank (a b : string) :
  Js.trimEnd b = "" -> Js.trimEnd (a ++ b) = Js.trimEnd a.
Proof.
  intros Hb. induction a as [|x a IH]; simpl; [exact Hb | now rewrite IH].
Qed.

(** A template that ends with a line [h], an empty line and a last line
    [c]: [trimEnd] trims [c], and drops it with the empty line when nothing
    of it is left. *)
Lemma trimEnd_last_line (x : string) (l : list string) (h c : string) :
  Js.trimEnd h = h -> h <> "" ->
  Js.trimEnd (Js.join Js.nl ((x :: l) ++ [h; ""; c])%list)
  = Js.join Js.nl ((x :: l) ++ [h]
                   ++ match Js.trimEnd c with
                      | EmptyString => []
                      | kept => [""; kept]
                      end)%list.
Proof.
  intros Hh Hne. unfold Js.join.
  assert (Hsplit : ((x :: l) ++ [h; ""; c])%list
                   = ((x :: ((l ++ [h]) ++ [""])) ++ [c])%list).
  { simpl. rewrite <- !app_assoc. reflexivity. }
  rewrite Hsplit, concat_snoc.
  change (x :: ((l ++ [h]) ++ [""]))%list
    with ((x :: (l ++ [h])) ++ [""])%list.
  rewrite concat_snoc.
  change (x :: (l ++ [h]))%list with ((x :: l) ++ [h])%list.
  rewrite concat_snoc.
  set (a := String.concat Js.nl (x :: l)).
  destruct (Js.trimEnd c) as [|k kept] eqn:Ec.
  - rewrite app_nil_r, concat_snoc. fold a.
    rewrite !append_assoc.
    replace (a ++ Js.nl ++ h ++ Js.nl ++ "" ++ Js.nl ++ c)
      with ((a ++ Js.nl ++ h) ++ (Js.nl ++ "" ++ Js.nl ++ c))
      by now rewrite !append_assoc.
    rewrite trimEnd_drop_blank by (simpl; now rewrite Ec).
    rewrite <- append_assoc.
    rewrite trimEnd_append by (rewrite Hh; exact Hne).
    now rewrite Hh, append_assoc.
  - assert (Hout : ((x :: l) ++ [h] ++ [""; String k kept])%list
                   = ((x :: ((l ++ [h]) ++ [""])) ++ [String k kept])%list).
    { simpl. rewrite <- !app_assoc. reflexivity. }
    rewrite Hout, concat_snoc.
    change (x :: ((l ++ [h]) ++ [""]))%list
      with ((x :: (l ++ [h])) ++ [""])%list.
    rewrite concat_snoc.
    change (x :: (l ++ [h]))%list with ((x :: l) ++ [h])%list.
    rewrite concat_snoc. fold a.
    rewrite <- !append_assoc.
    rewrite trimEnd_append by (rewrite Ec; discriminate).
    now rewrite Ec.
Qed.

Section FormatterEdges.
Context `{Number}.

(** X4. When the summary is null or empty, the body excerpt of the list mode
    is a prefix of the content, of 500 characters or of the whole content
    when that is shorter, followed by the three-character marker: it never
    exceeds 503 characters. *)
Theorem excerpt_is_bounded_prefix (f : SoloditFinding.t) :
  SoloditFinding.summary f = None \/ SoloditFinding.summary f = Some "" ->
  exists shown rest : string,
    body_excerpt f = shown ++ "..."
    /\ SoloditFinding.content f = shown ++ rest
    /\ String.length shown
       = Nat.min 500 (String.length (SoloditFinding.content f))
    /\ String.length (body_excerpt f) <= 503.
Proof.
  intros Hsum.
  assert (Hex : body_excerpt f
                = Js.substring (SoloditFinding.content f) 0 500 ++ "...").
  { unfold body_excerpt. destruct Hsum as [-> | ->]; reflexivity. }
  destruct (substring_is_prefix (SoloditFinding.content f) 500)
    as [Hlen [rest Hrest]].
  exists (Js.substring (SoloditFinding.content f) 0 500), rest.
  split; [exact Hex |]. split; [exact Hrest |]. split; [exact Hlen |].
  rewrite Hex, length_append, Hlen.
  change (String.length "...") with 3. lia.
Qed.

(** X5. A non-empty summary is rendered as the body of the list-mode block as
    it is, whatever its length: no truncation, no marker, and nothing of
    the content. *)
Theorem summary_rendered_verbatim (f : SoloditFinding.t) (s : string)
  (fs : list SoloditFinding.IssueFinder) (ts : list SoloditFinding.IssueTagScore) :
  SoloditFinding.summary f = Some s ->
  s <> "" ->
  SoloditFinding.issues_issue_finders f = Some fs ->
  SoloditFinding.issues_issuetagscore f = Some ts ->
  formatFinding f
  = Js.Returned (lines (
      [ ("## [" ++ Impact_toString (SoloditFinding.impact f) ++ "] "
           ++ SoloditFinding.title f)%string;
        "" ]
      ++ map field_line
           (formatFinding_fields f (joined_handles fs) (joined_titles ts))
      ++ [ ""; s; ""; "---" ])%list).
Proof.
  intros Hsum Hne Hfs Hts.
  rewrite (formatFinding_returns f fs ts Hfs Hts).
  unfold body_excerpt. rewrite Hsum.
  destruct s; [contradiction | reflexivity].
Qed.

(** X6. Each nullable text field of a finding (protocol name, firm name,
    report date, source link) has its row in the list-mode block: the
    field's text when it is a non-empty string, the placeholder "N/A" when
    it is null or the empty string. *)
Theorem nullable_fields_have_placeholder (field : NullableField)
  (f : SoloditFinding.t)
  (fs : list SoloditFinding.IssueFinder) (ts : list SoloditFinding.IssueTagScore) :
  SoloditFinding.issues_issue_finders f = Some fs ->
  SoloditFinding.issues_issuetagscore f = Some ts ->
  exists rows : list (string * string),
    formatFinding f
    = Js.Returned (lines (
        [ ("## [" ++ Impact_toString (SoloditFinding.impact f) ++ "] "
             ++ SoloditFinding.title f)%string;
          "" ]
        ++ map field_line rows
        ++ [ ""; body_excerpt f; ""; "---" ])%list)
    /\ In (nullable_label field,
           match nullable_value field f with
           | Some (String c s) => String c s
           | Some EmptyString | None => "N/A"
           end) rows.
Proof.
  intros Hfs Hts.
  exists (formatFinding_fields f (joined_handles fs) (joined_titles ts)).
  split; [exact (formatFinding_returns f fs ts Hfs Hts) |].
  unfold formatFinding_fields, or_NA, Js.or_else.
  destruct field; cbn [nullable_label nullable_value];
    match goal with
    | |- context [match ?x with Some _ => _ | None => _ end] =>
        destruct x as [[|c s]|]
    end; simpl; tauto.
Qed.

(** X7. The Finders row of the list-mode block shows the handles in the order
    of the list, joined by a comma and a space (the placeholder when the
    list is empty or holds one empty handle), followed by the finding's
    [finders_count], which is not the length of the list; the Tags row
    shows the tag titles the same way. *)
Theorem finders_and_tags_rows (f : SoloditFinding.t)
  (fs : list SoloditFinding.IssueFinder) (ts : list SoloditFinding.IssueTagScore) :
  SoloditFinding.issues_issue_finders f = Some fs ->
  SoloditFinding.issues_issuetagscore f = Some ts ->
  exists rows : list (string * string),
    formatFinding f
    = Js.Returned (lines (
        [ ("## [" ++ Impact_toString (SoloditFinding.impact f) ++ "] "
             ++ SoloditFinding.title f)%string;
          "" ]
        ++ map field_line rows
        ++ [ ""; body_excerpt f; ""; "---" ])%list)
    /\ In ("Finders",
           match fs with
           | [] => "N/A"
           | [w] =>
               match SoloditFinding.handle (SoloditFinding.wardens_warden w) with
               | EmptyString => "N/A"
               | h => h
               end
           | _ :: _ :: _ => joined_handles fs
           end
           ++ " (" ++ number_toString (SoloditFinding.finders_count f)
           ++ " total)") rows
    /\ In ("Tags",
           match ts with
           | [] => "N/A"
           | [t] =>
               match SoloditFinding.Tag.title (SoloditFinding.tags_tag t) with
               | EmptyString => "N/A"
               | h => h
               end
           | _ :: _ :: _ => joined_titles ts
           end) rows.
Proof.
  intros Hfs Hts.
  exists (formatFinding_fields f (joined_handles fs) (joined_titles ts)).
  split; [exact (formatFinding_returns f fs ts Hfs Hts) |].
  unfold formatFinding_fields, or_NA, joined_handles, joined_titles.
  rewrite !join_comma_cases. split.
  - destruct fs as [|w [|w' r]]; simpl; try tauto.
    destruct (SoloditFinding.handle (SoloditFinding.wardens_warden w));
      simpl; tauto.
  - destruct ts as [|t [|t' r]]; simpl; try tauto.
    destruct (SoloditFinding.Tag.title (SoloditFinding.tags_tag t));
      simpl; tauto.
Qed.

(** X8. When one of the two nested lists of a finding is null or absent, both
    renderings fail with the runtime's [TypeError]; neither returns a text
    with that row left out or filled with the placeholder. *)
Theorem renderings_throw_without_arrays (f : SoloditFinding.t) :
  lacks_array f ->
  formatFinding f = Js.Thrown Js.TypeError
  /\ formattedFinding f = Js.Thrown Js.TypeError.
Proof.
  unfold formatFinding, formattedFinding.
  intros [Hf | Ht];
    destruct (SoloditFinding.issues_issuetagscore f) eqn:Et;
    destruct (SoloditFinding.issues_issue_finders f) eqn:Ef;
    try discriminate; split; reflexivity.
Qed.

(** X9. The detail template renders the content in full, whatever its length
    and without marker; [trim] only drops the white space that ends it.
    A content of white space alone leaves the text ending with the
    [## Content] heading. *)
Theorem detail_renders_whole_content (f : SoloditFinding.t)
  (fs : list SoloditFinding.IssueFinder) (ts : list SoloditFinding.IssueTagScore) :
  SoloditFinding.issues_issue_finders f = Some fs ->
  SoloditFinding.issues_issuetagscore f = Some ts ->
  formattedFinding f
  = Js.Returned (lines (
      [ ("# " ++ SoloditFinding.title f)%string; "" ]
      ++ map field_line
           (formattedFinding_fields f (joined_handles fs) (joined_titles ts))
      ++ [ ""; "---"; ""; "## Content" ]
      ++ match Js.trimEnd (SoloditFinding.content f) with
         | EmptyString => []
         | kept => [ ""; kept ]
         end)%list).
Proof.
  intros Hfs Hts.
  rewrite (formattedFinding_returns f fs ts Hfs Hts). f_equal.
  generalize (map field_line
                (formattedFinding_fields f (joined_handles fs) (joined_titles ts))).
  intros rows. unfold lines.
  set (title := ("# " ++ SoloditFinding.title f)%string).
  assert (Hin : ([title; ""] ++ rows
                 ++ [""; "---"; ""; "## Content"; ""; SoloditFinding.content f])%list
                = ((title :: "" :: rows ++ [""; "---"; ""])
                     ++ ["## Content"; ""; SoloditFinding.content f])%list).
  { simpl. rewrite <- ?app_assoc. reflexivity. }
  rewrite Hin, trimEnd_last_line by (reflexivity || discriminate).
  f_equal. simpl. rewrite <- ?app_assoc. reflexivity.
Qed.

End FormatterEdges.

(** ** Further properties of the remote query and the two tools *)

Section ToolRuns.
Context `{Number}.

Lemma formatFinding_block (f : SoloditFinding.t) (b : string) :
  formatFinding f = Js.Returned b -> Js.trimEnd b = b /\ b <> "".
Proof.
  intros Hb.
  destruct (SoloditFinding.issues_issuetagscore f) as [ts|] eqn:Hts;
    [| unfold formatFinding in Hb; rewrite Hts in Hb; discriminate].
  destruct (SoloditFinding.issues_issue_finders f) as [fs|] eqn:Hfs;
    [| unfold formatFinding in Hb; rewrite Hts, Hfs in Hb; discriminate].
  rewrite (formatFinding_returns f fs ts Hfs Hts) in Hb.
  match type of Hb with
  | Js.Returned ?out = _ => assert (E : b = out) by congruence
  end.
  rewrite E. clear E Hb b.
  generalize (map field_line
                (formatFinding_fields f (joined_handles fs) (joined_titles ts))).
  intros rows.
  set (h := ("## [" ++ Impact_toString (SoloditFinding.impact f) ++ "] "
             ++ SoloditFinding.title f)%string).
  assert (Hshape : ([h; ""] ++ rows ++ [""; body_excerpt f; ""; "---"])%list
                   = ((h :: "" :: rows ++ [""; body_excerpt f; ""])
                        ++ ["---"])%list).
  { simpl. rewrite <- ?app_assoc. reflexivity. }
  rewrite Hshape. split.
  - apply trimEnd_rule.
  - unfold lines, Js.join. rewrite concat_snoc.
    destruct (String.concat Js.nl (h :: "" :: rows ++ [""; body_excerpt f; ""])%list);
      discriminate.
Qed.

(** Blocks that [trimEnd] leaves alone, joined: [trimEnd] leaves the text
    alone too. *)
Lemma trimEnd_joined_blocks (sep : string) (blocks : list string) :
  Forall (fun b => Js.trimEnd b = b /\ b <> "") blocks ->
  blocks <> [] ->
  Js.trimEnd (Js.join sep blocks) = Js.join sep blocks
  /\ Js.join sep blocks <> "".
Proof.
  unfold Js.join. induction 1 as [|b rest [Hb Hne] Hrest IH]; [contradiction |].
  intros _. destruct rest as [|b' rest].
  - simpl. now split.
  - destruct IH as [IHt IHn]; [discriminate |].
    rewrite concat_cons2. split.
    + rewrite <- append_assoc, trimEnd_append by now rewrite IHt.
      now rewrite IHt.
    + destruct b; [contradiction | discriminate].
Qed.

(** [formatFinding] either returns or throws the runtime's [TypeError]. *)
Lemma formatFinding_outcomes (f : SoloditFinding.t) :
  (has_arrays f /\ exists b : string, formatFinding f = Js.Returned b)
  \/ (lacks_array f /\ formatFinding f = Js.Thrown Js.TypeError).
Proof.
  unfold has_arrays, lacks_array, formatFinding.
  destruct (SoloditFinding.issues_issuetagscore f) as [ts|];
    destruct (SoloditFinding.issues_issue_finders f) as [fs|];
    cbn [array_map Js.obind]; eauto 8.
Qed.

Lemma map_throwing_returns (fs : list SoloditFinding.t) :
  Forall has_arrays fs ->
  exists blocks : list string,
    map_throwing formatFinding fs = Js.Returned blocks
    /\ Forall2 (fun f b => formatFinding f = Js.Returned b) fs blocks.
Proof.
  induction 1 as [|f rest Hf Hrest [blocks [Hmap Hall]]].
  - exists []. split; [reflexivity | constructor].
  - destruct (formatFinding_outcomes f) as [[_ [b Hb]] | [Hlack Hthrow]].
    + exists (b :: blocks). simpl. rewrite Hb, Hmap.
      split; [reflexivity | now constructor].
    + destruct Hf as [xs [ts [Hxs Hts]]].
      destruct Hlack as [Hl | Hl]; congruence.
Qed.

Lemma map_throwing_throws (fs : list SoloditFinding.t) :
  Exists lacks_array fs ->
  map_throwing formatFinding fs = Js.Thrown Js.TypeError.
Proof.
  induction fs as [|f rest IH]; intros Hex; [inversion Hex |].
  simpl.
  destruct (formatFinding_outcomes f) as [[Hf [b Hb]] | [_ Hthrow]].
  - rewrite Hb. cbn [Js.obind].
    inversion Hex as [? ? Hlack | ? ? Hin]; subst.
    + destruct Hf as [xs [ts [Hxs Hts]]].
      destruct Hlack as [Hl | Hl]; congruence.
    + now rewrite (IH Hin).
  - now rewrite Hthrow.
Qed.

(** The summary text: the header lines and the rule, then, after an empty
    line, what [trim] leaves of the formatted findings, if anything. *)
Lemma search_summary_text (response : SoloditResponse.t) (formatted : string) :
  search_summary response formatted
  = lines (
      [ "# Solodit Search Results";
        "";
        ("**Total Results:** "
          ++ number_toString (SoloditResponse.totalResults
                                (SoloditResponse.metadata response)))%string;
        ("**Page:** "
          ++ number_toString (SoloditResponse.currentPage
                                (SoloditResponse.metadata response))
          ++ " of "
          ++ number_toString (SoloditResponse.totalPages
                                (SoloditResponse.metadata response)))%string;
        ("**Results on this page:** "
          ++ Js.nat_toString
               (List.length (SoloditResponse.findings response)))%string;
        ("**Query Time:** "
          ++ number_toFixed (SoloditResponse.elapsed
                               (SoloditResponse.metadata response)) 3
          ++ "s")%string;
        ("**Rate Limit:** "
          ++ number_toString (SoloditResponse.remaining
                                (SoloditResponse.rateLimit response))
          ++ "/"
          ++ number_toString (SoloditResponse.limit
                                (SoloditResponse.rateLimit response))
          ++ " remaining")%string;
        "";
        "---" ]
      ++ match Js.trimEnd formatted with
         | EmptyString => []
         | kept => [ ""; kept ]
         end)%list.
Proof.
  unfold search_summary. cbv zeta.
  match goal with
  | |- Js.trim (lines [""; ?x; ?e; ?a; ?b; ?c; ?d; ?g; ?e2; ?r; ?e3; ?f; ?e4])
       = ?rhs =>
      change (Js.trim (lines ("" :: String "#" " Solodit Search Results"
                                 :: ([e; a; b; c; d; g; e2; r; e3] ++ [f; e4])%list))
              = rhs);
      rewrite trim_template by reflexivity;
      change (Js.trimEnd (Js.join Js.nl
                ((String "#" " Solodit Search Results" :: [e; a; b; c; d; g; e2])
                   ++ [r; e3; f])%list) = rhs)
  end.
  rewrite trimEnd_last_line by (reflexivity || discriminate).
  reflexivity.
Qed.

(** X10. Each tool issues at most one outbound request per invocation, whatever
    the configuration, the arguments and the remote side's answer: there is
    no retry and no second call. *)
Theorem tools_issue_at_most_one_request (env : option string)
  (remote : Http.Request -> Http.FetchResult) (args : SearchArgs.t)
  (keywords : string) :
  List.length (fst (run remote (search_findings env args))) <= 1
  /\ List.length (fst (run remote (get_finding_by_id env keywords))) <= 1.
Proof.
  assert (Hone : forall request : SoloditRequest.t,
            List.length (fst (run remote (searchSoloditFindings env request))) <= 1).
  { intros request.
    destruct (Js.truthy (SOLODIT_API_KEY env)) eqn:Hkey.
    - destruct (searchSoloditFindings_with_key env request remote Hkey)
        as [req [_ ->]]. simpl. lia.
    - rewrite searchSoloditFindings_without_key by exact Hkey. simpl. lia. }
  split.
  - unfold search_findings. rewrite run_bind.
    destruct (snd (run remote (searchSoloditFindings env (search_request args))))
      as [response | e]; cbn [fst]; [| apply Hone].
    rewrite run_lift_bind.
    destruct (map_throwing formatFinding (SoloditResponse.findings response));
      cbn [run fst]; rewrite app_nil_r; apply Hone.
  - unfold get_finding_by_id. rewrite run_bind.
    destruct (snd (run remote (searchSoloditFindings env (lookup_request keywords))))
      as [response | e]; cbn [fst]; [| apply Hone].
    destruct (SoloditResponse.findings response) as [|finding rest].
    + cbn [run fst]. rewrite app_nil_r. apply Hone.
    + rewrite run_lift_bind.
      destruct (formattedFinding finding);
        cbn [run fst]; rewrite app_nil_r; apply Hone.
Qed.

(** X11. With a key [k] configured, the one request of [search_findings] is a
    POST to the findings endpoint, with the JSON content type and the key
    in the [X-Cyfrin-API-Key] header, whose body is the request built from
    the arguments. *)
Theorem search_findings_posts_its_request (k : string)
  (remote : Http.Request -> Http.FetchResult) (args : SearchArgs.t) :
  k <> "" ->
  fst (run remote (search_findings (Some k) args))
  = [ {| Http.url := "https://solodit.cyfrin.io/api/v1/solodit/findings";
         Http.method := "POST";
         Http.headers := [("Content-Type", "application/json");
                          ("X-Cyfrin-API-Key", k)];
         Http.body := search_request args |} ].
Proof.
  intros Hk.
  assert (Hkey : Js.truthy (SOLODIT_API_KEY (Some k)) = true)
    by (destruct k; [contradiction | reflexivity]).
  assert (Hval : SOLODIT_API_KEY (Some k) = k)
    by (destruct k; [contradiction | reflexivity]).
  destruct (searchSoloditFindings_with_key (Some k) (search_request args)
              remote Hkey) as [req [Hpost Hrun]].
  assert (Hreq : req = {| Http.url := "https://solodit.cyfrin.io/api/v1/solodit/findings";
                          Http.method := "POST";
                          Http.headers := [("Content-Type", "application/json");
                                           ("X-Cyfrin-API-Key", k)];
                          Http.body := search_request args |}).
  { destruct req as [u m h b]. destruct Hpost as [Hu [Hm [Hh Hb]]].
    cbn [Http.url Http.method Http.headers Http.body] in Hu, Hm, Hh, Hb.
    rewrite Hval in Hh. now subst. }
  unfold search_findings. rewrite run_bind, Hrun. cbn [fst snd].
  rewrite <- Hreq.
  match goal with
  | |- fst (match ?o with Js.Returned _ => _ | Js.Thrown _ => _ end) = _ =>
      destruct o as [response | e]; cbn [fst]; [| reflexivity]
  end.
  rewrite run_lift_bind.
  destruct (map_throwing formatFinding (SoloditResponse.findings response));
    reflexivity.
Qed.

(** X12. When the remote side answers a search with findings whose nested
    lists are arrays, [search_findings] returns one text: the summary
    header (totals, page, number of findings on the page, query time with
    three decimals, rate limit) and the rule, then one block per finding,
    in the order of the response, separated by empty lines. With no
    finding the text ends with the rule. *)
Theorem search_findings_renders_page (env : option string)
  (args : SearchArgs.t) (remote : Http.Request -> Http.FetchResult)
  (response : SoloditResponse.t) :
  Js.truthy (SOLODIT_API_KEY env) = true ->
  (forall req : Http.Request,
     is_post_of env (search_request args) req ->
     remote req = Http.Responded (Http.Success (Some response))) ->
  Forall has_arrays (SoloditResponse.findings response) ->
  exists blocks : list string,
    Forall2 (fun f b => formatFinding f = Js.Returned b)
      (SoloditResponse.findings response) blocks
    /\ snd (run remote (search_findings env args))
       = Js.Returned
           {| content :=
                [ {| type := "text";
                     text := lines (
      [ "# Solodit Search Results";
        "";
        ("**Total Results:** "
          ++ number_toString (SoloditResponse.totalResults
                                (SoloditResponse.metadata response)))%string;
        ("**Page:** "
          ++ number_toString (SoloditResponse.currentPage
                                (SoloditResponse.metadata response))
          ++ " of "
          ++ number_toString (SoloditResponse.totalPages
                                (SoloditResponse.metadata response)))%string;
        ("**Results on this page:** "
          ++ Js.nat_toString (List.length blocks))%string;
        ("**Query Time:** "
          ++ number_toFixed (SoloditResponse.elapsed
                               (SoloditResponse.metadata response)) 3
          ++ "s")%string;
        ("**Rate Limit:** "
          ++ number_toString (SoloditResponse.remaining
                                (SoloditResponse.rateLimit response))
          ++ "/"
          ++ number_toString (SoloditResponse.limit
                                (SoloditResponse.rateLimit response))
          ++ " remaining")%string;
        "";
        "---" ]
      ++ match blocks with
         | [] => []
         | _ :: _ => [ ""; Js.join (Js.nl ++ Js.nl) blocks ]
         end)%list |} ] |}.
Proof.
  intros Hkey Hremote Harrays.
  destruct (map_throwing_returns _ Harrays) as [blocks [Hmap Hall]].
  exists blocks. split; [exact Hall |].
  destruct (searchSoloditFindings_with_key env (search_request args)
              remote Hkey) as [req [Hpost Hrun]].
  unfold search_findings.
  rewrite run_bind, Hrun, (Hremote req Hpost). cbn [fst snd].
  rewrite run_lift_bind, Hmap. cbn [run snd]. unfold text_result.
  do 4 f_equal. rewrite search_summary_text.
  rewrite (Forall2_length Hall). f_equal. f_equal.
  destruct blocks as [|b rest]; [reflexivity |].
  assert (Hblocks : Forall (fun b => Js.trimEnd b = b /\ b <> "") (b :: rest)).
  { clear - Hall. induction Hall as [|f b' fs bs Hb _ IH]; constructor.
    - exact (formatFinding_block f b' Hb).
    - exact IH. }
  destruct (trimEnd_joined_blocks (Js.nl ++ Js.nl) (b :: rest) Hblocks)
    as [Hkeep Hne]; [discriminate |].
  rewrite Hkeep.
  destruct (Js.join (Js.nl ++ Js.nl) (b :: rest)); [contradiction | reflexivity].
Qed.

(** X13. No partial result: when one finding of the response has a nested list
    that is null or absent, [search_findings] returns nothing and fails with
    the runtime's [TypeError], however many other findings are well formed. *)
Theorem search_findings_all_or_nothing (env : option string)
  (args : SearchArgs.t) (remote : Http.Request -> Http.FetchResult)
  (response : SoloditResponse.t) :
  Js.truthy (SOLODIT_API_KEY env) = true ->
  (forall req : Http.Request,
     is_post_of env (search_request args) req ->
     remote req = Http.Responded (Http.Success (Some response))) ->
  Exists lacks_array (SoloditResponse.findings response) ->
  snd (run remote (search_findings env args)) = Js.Thrown Js.TypeError.
Proof.
  intros Hkey Hremote Hbad.
  destruct (searchSoloditFindings_with_key env (search_request args)
              remote Hkey) as [req [Hpost Hrun]].
  unfold search_findings.
  rewrite run_bind, Hrun, (Hremote req Hpost). cbn [fst snd].
  now rewrite run_lift_bind, (map_throwing_throws _ Hbad).
Qed.

(** X14. A failure of [searchSoloditFindings] is the failure of the tool that
    called it: the same error, after the same requests; neither tool
    recovers from it or replaces it. *)
Theorem tools_surface_the_failure (env : option string)
  (remote : Http.Request -> Http.FetchResult) (args : SearchArgs.t)
  (keywords : string) (e : exn) :
  (snd (run remote (searchSoloditFindings env (search_request args)))
   = Js.Thrown e ->
   run remote (search_findings env args)
   = (fst (run remote (searchSoloditFindings env (search_request args))),
      Js.Thrown e))
  /\ (snd (run remote (searchSoloditFindings env (lookup_request keywords)))
      = Js.Thrown e ->
      run remote (get_finding_by_id env keywords)
      = (fst (run remote (searchSoloditFindings env (lookup_request keywords))),
         Js.Thrown e)).
Proof.
  split; intros Hfail; unfold search_findings, get_finding_by_id;
    now rewrite run_bind, Hfail.
Qed.

(** X15. When [fetch] itself fails, or a successful response has a body that is
    no JSON, [searchSoloditFindings] fails with the runtime's rejection: it
    returns no empty or default response. *)
Theorem transport_failures_reject (env : option string)
  (request : SoloditRequest.t) (remote : Http.Request -> Http.FetchResult) :
  Js.truthy (SOLODIT_API_KEY env) = true ->
  (forall req : Http.Request,
     is_post_of env request req ->
     remote req = Http.Unreachable
     \/ remote req = Http.Responded (Http.Success None)) ->
  snd (run remote (searchSoloditFindings env request)) = Js.Thrown Js.Rejected.
Proof.
  intros Hkey Hremote.
  destruct (searchSoloditFindings_with_key env request remote Hkey)
    as [req [Hpost Hrun]].
  rewrite Hrun. cbn [snd].
  destruct (Hremote req Hpost) as [-> | ->]; reflexivity.
Qed.

(** X16. A non-success response whose body parses to a value other than [null]
    without a usable message (no object, an object without [message], or
    one whose [message] is the empty string, [null] or [false]) fails with
    the status code and the status text of the response. *)
Theorem error_falls_back_to_status_text (env : option string)
  (request : SoloditRequest.t) (remote : Http.Request -> Http.FetchResult)
  (status : nat) (statusText : string) (v : Js.value) :
  Js.truthy (SOLODIT_API_KEY env) = true ->
  (forall req : Http.Request,
     is_post_of env request req ->
     remote req = Http.Responded (Http.Failure status statusText (Some v))) ->
  v <> Js.Null ->
  (forall props : list (string * Js.value),
     v = Js.Object props ->
     Js.get_own "message" props = None
     \/ Js.get_own "message" props = Some (Js.Str "")
     \/ Js.get_own "message" props = Some Js.Null
     \/ Js.get_own "message" props = Some (Js.Bool false)) ->
  snd (run remote (searchSoloditFindings env request))
  = Js.Thrown (Js.Error ("Solodit API error (" ++ Js.nat_toString status
                         ++ "): " ++ statusText)).
Proof.
  intros Hkey Hremote Hnull Hmsg.
  destruct (searchSoloditFindings_with_key env request remote Hkey)
    as [req [Hpost Hrun]].
  rewrite Hrun, (Hremote req Hpost). cbn [snd]. unfold error_detail.
  destruct v as [| b | n | s | items | props]; try reflexivity.
  - contradiction.
  - cbn [Js.get_message Js.obind].
    destruct (Hmsg props eq_refl) as [-> | [-> | [-> | ->]]]; reflexivity.
Qed.

(** X17. A non-success response whose body parses to [null] fails with the
    runtime's [TypeError]: the status code and the status text are lost. *)
Theorem null_error_body_loses_status (env : option string)
  (request : SoloditRequest.t) (remote : Http.Request -> Http.FetchResult)
  (status : nat) (statusText : string) :
  Js.truthy (SOLODIT_API_KEY env) = true ->
  (forall req : Http.Request,
     is_post_of env request req ->
     remote req
     = Http.Responded (Http.Failure status statusText (Some Js.Null))) ->
  snd (run remote (searchSoloditFindings env request)) = Js.Thrown Js.TypeError.
Proof.
  intros Hkey Hremote.
  destruct (searchSoloditFindings_with_key env request remote Hkey)
    as [req [Hpost Hrun]].
  now rewrite Hrun, (Hremote req Hpost).
Qed.

(** X18. A truthy [message] of any JSON type is put in the error as the
    template literal converts it: a number in its decimal form, [true] as
    "true", an object as "[object Object]". *)
Theorem structured_message_is_converted (env : option string)
  (request : SoloditRequest.t) (remote : Http.Request -> Http.FetchResult)
  (status : nat) (statusText : string) (props : list (string * Js.value))
  (v : Js.value) :
  Js.truthy (SOLODIT_API_KEY env) = true ->
  (forall req : Http.Request,
     is_post_of env request req ->
     remote req = Http.Responded
                    (Http.Failure status statusText (Some (Js.Object props)))) ->
  Js.get_own "message" props = Some v ->
  (forall n : number, v = Js.Num n -> number_truthy n = true ->
   snd (run remote (searchSoloditFindings env request))
   = Js.Thrown (Js.Error ("Solodit API error (" ++ Js.nat_toString status
                          ++ "): " ++ number_toString n)))
  /\ (v = Js.Bool true ->
      snd (run remote (searchSoloditFindings env request))
      = Js.Thrown (Js.Error ("Solodit API error (" ++ Js.nat_toString status
                             ++ "): true")))
  /\ (forall inner : list (string * Js.value),
        v = Js.Object inner -> Js.get_own "toString" inner = None ->
        snd (run remote (searchSoloditFindings env request))
        = Js.Thrown (Js.Error ("Solodit API error (" ++ Js.nat_toString status
                               ++ "): [object Object]"))).
Proof.
  intros Hkey Hremote Hv.
  destruct (searchSoloditFindings_with_key env request remote Hkey)
    as [req [Hpost Hrun]].
  rewrite Hrun, (Hremote req Hpost). cbn [snd]. unfold error_detail.
  cbn [Js.get_message Js.obind]. rewrite Hv.
  split; [| split].
  - intros n -> Hn. cbn [Js.value_truthy]. now rewrite Hn.
  - intros ->. reflexivity.
  - intros inner -> Hinner. cbn [Js.value_truthy Js.toString].
    now rewrite Hinner.
Qed.

(** X19. When the lookup finds something, [get_finding_by_id] renders the first
    finding of the response with the detail template and no other: the
    findings after it are not read, so even a malformed one cannot make
    the tool fail. It fails, with the runtime's [TypeError], when a nested
    list of the first finding is null or absent. *)
Theorem get_finding_by_id_renders_first_finding (env : option string)
  (keywords : string) (remote : Http.Request -> Http.FetchResult)
  (response : SoloditResponse.t) (finding : SoloditFinding.t)
  (rest : list SoloditFinding.t) :
  Js.truthy (SOLODIT_API_KEY env) = true ->
  (forall req : Http.Request,
     is_post_of env (lookup_request keywords) req ->
     remote req = Http.Responded (Http.Success (Some response))) ->
  SoloditResponse.findings response = finding :: rest ->
  (has_arrays finding ->
   exists out : string,
     formattedFinding finding = Js.Returned out
     /\ snd (run remote (get_finding_by_id env keywords))
        = Js.Returned {| content := [ {| type := "text"; text := out |} ] |})
  /\ (lacks_array finding ->
      snd (run remote (get_finding_by_id env keywords))
      = Js.Thrown Js.TypeError).
Proof.
  intros Hkey Hremote Hfirst.
  destruct (searchSoloditFindings_with_key env (lookup_request keywords)
              remote Hkey) as [req [Hpost Hrun]].
  unfold get_finding_by_id.
  rewrite run_bind, Hrun, (Hremote req Hpost). cbn [fst snd].
  rewrite Hfirst, run_lift_bind. split.
  - intros [fs [ts [Hfs Hts]]].
    rewrite (formattedFinding_returns finding fs ts Hfs Hts).
    eexists. split; reflexivity.
  - unfold formattedFinding.
    intros [Hl | Hl]; rewrite Hl;
      [| destruct (SoloditFinding.issues_issue_finders finding)]; reflexivity.
Qed.

End ToolRuns.

(** ** Concrete runs *)

#[local] Existing Instance IntegerNumber.integers.

(** The list-mode block of the sample finding. *)
Example formatFinding_sample :
  formatFinding Sample.finding
  = Js.Returned "## [HIGH] Reentrancy in withdraw

**ID:** 8812
**Slug:** reentrancy-in-withdraw
**Protocol:** N/A
**Audit Firm:** Cyfrin
**Quality Score:** 4/5
**Rarity Score:** 3/5
**Report Date:** 2024-01-15
**Finders:** alice, bob (2 total)
**Tags:** N/A
**Source:** N/A

abc...

---".
Proof. reflexivity. Qed.

(** The detail-mode rendering of the sample finding. *)
Example formattedFinding_sample :
  formattedFinding Sample.finding
  = Js.Returned "# Reentrancy in withdraw

**ID:** 8812
**Slug:** reentrancy-in-withdraw
**Impact:** HIGH
**Protocol:** N/A
**Audit Firm:** Cyfrin
**Quality Score:** 4/5
**Rarity Score:** 3/5
**Report Date:** 2024-01-15
**Finders:** alice, bob (2 total)
**Tags:** N/A
**Source:** N/A

---

## Content

abc".
Proof. reflexivity. Qed.

(** C1, counterexample: [{ keywords: "" }] sets one filter field, and the
    request has no [filters] key. *)
Lemma empty_keywords_sends_no_filters :
  supplied_filters Sample.empty_keywords = ["keywords"]
  /\ SoloditRequest.filters (search_request Sample.empty_keywords) = None.
Proof. split; reflexivity. Qed.

Lemma filters_key_presence_witness :
  SoloditRequest.filters (search_request Sample.no_args) = None
  /\ exists f : SoloditFilters.t,
       SoloditRequest.filters (search_request Sample.two_firms) = Some f
       /\ SoloditFilters.keys f = ["firms"].
Proof.
  split.
  - exact (proj1 (filters_key_presence Sample.no_args) eq_refl).
  - apply (proj2 (filters_key_presence Sample.two_firms)). discriminate.
Defined.

(** C4, counterexample: [{ user: "" }] sets exactly one filter field, and
    the request has no filters object, hence no key for it. *)
Lemma empty_user_sends_no_filters :
  supplied_filters Sample.empty_user = ["user"]
  /\ SoloditRequest.filters (search_request Sample.empty_user) = None.
Proof. split; reflexivity. Qed.

(** A score of zero is a filter like any other score. *)
Lemma single_filter_single_key_witness :
  exists f : SoloditFilters.t,
    SoloditRequest.filters (search_request Sample.zero_quality) = Some f
    /\ SoloditFilters.keys f = ["qualityScore"].
Proof.
  exact (single_filter_single_key Sample.zero_quality "qualityScore"
           eq_refl eq_refl).
Defined.

(** So is an empty list. *)
Example empty_list_is_a_filter :
  exists f : SoloditFilters.t,
    SoloditRequest.filters (search_request Sample.no_tags) = Some f
    /\ SoloditFilters.keys f = ["tags"]
    /\ SoloditFilters.tags f = Some [].
Proof. eexists. repeat split. Qed.

Lemma free_text_lists_wrapped_witness :
  exists (f : SoloditFilters.t) (ws : list ValueLabel),
    SoloditRequest.filters (search_request Sample.two_firms) = Some f
    /\ SoloditFilters.firms f = Some ws
    /\ List.length ws = 2
    /\ forall (i : nat) (x : string),
         nth_error ["Cyfrin"; "Sherlock"] i = Some x ->
         nth_error ws i = Some {| value := x; label := None |}.
Proof.
  exact (free_text_lists_wrapped Firms Sample.two_firms
           ["Cyfrin"; "Sherlock"] eq_refl).
Defined.

(** C2, counterexample: the sample finding has a null summary and a
    content of three characters, and its excerpt ends with the marker. *)
Lemma short_content_gets_marker :
  SoloditFinding.summary Sample.finding = None
  /\ String.length (SoloditFinding.content Sample.finding) < 500
  /\ body_excerpt Sample.finding = "abc..."
  /\ body_excerpt Sample.finding <> SoloditFinding.content Sample.finding.
Proof.
  split; [reflexivity |]. split; [simpl; lia |].
  split; [reflexivity | discriminate].
Qed.

(** The short sample finding, and the one of 600 characters. *)
Lemma null_summary_excerpt_keeps_marker_witness :
  (exists shown rest : string,
     "abc" = shown ++ rest
     /\ String.length shown = 3
     /\ (3 <= 500 -> shown = "abc")
     /\ body_excerpt Sample.finding = shown ++ "..."
     /\ formatFinding Sample.finding
        = Js.Returned (lines (
            [ "## [HIGH] Reentrancy in withdraw"; "" ]
            ++ map field_line
                 (formatFinding_fields Sample.finding "alice, bob" "")
            ++ [ ""; (shown ++ "...")%string; ""; "---" ])%list))
  /\ (exists shown rest : string,
        Sample.padding 600 = shown ++ rest
        /\ String.length shown = 500
        /\ (600 <= 500 -> shown = Sample.padding 600)
        /\ body_excerpt Sample.long_finding = shown ++ "..."
        /\ formatFinding Sample.long_finding
           = Js.Returned (lines (
               [ "## [MEDIUM] Oracle price manipulation"; "" ]
               ++ map field_line
                    (formatFinding_fields Sample.long_finding ""
                       "Oracle, Price")
               ++ [ ""; (shown ++ "...")%string; ""; "---" ])%list)).
Proof.
  split.
  - exact (null_summary_excerpt_keeps_marker Sample.finding
             [Sample.finder "alice"; Sample.finder "bob"] []
             eq_refl eq_refl eq_refl).
  - exact (null_summary_excerpt_keeps_marker Sample.long_finding
             [Sample.finder ""] [Sample.tag "Oracle"; Sample.tag "Price"]
             eq_refl eq_refl eq_refl).
Defined.

Lemma empty_summary_falls_back_witness :
  formatFinding (with_summary (Some "") Sample.finding)
  = formatFinding Sample.finding
  /\ exists shown rest : string,
       "abc" = shown ++ rest
       /\ String.length shown = 3
       /\ formatFinding (with_summary (Some "") Sample.finding)
          = Js.Returned (lines (
              [ "## [HIGH] Reentrancy in withdraw"; "" ]
              ++ map field_line
                   (formatFinding_fields Sample.finding "alice, bob" "")
              ++ [ ""; (shown ++ "...")%string; ""; "---" ])%list).
Proof.
  split.
  - exact (proj1 (proj2 (proj2 (empty_summary_falls_back
                    (with_summary (Some "") Sample.finding) eq_refl)))).
  - exact (proj2 (proj2 (proj2 (empty_summary_falls_back
                    (with_summary (Some "") Sample.finding) eq_refl)))
             [Sample.finder "alice"; Sample.finder "bob"] [] eq_refl eq_refl).
Defined.

(** C8, counterexample: the field table of the detail rendering of the
    sample finding has an Impact row, which the table of its list-mode
    block has not. *)
Lemma detail_table_has_impact_row :
  table_of (formatFinding Sample.finding)
  = Js.Returned
      [ "**ID:** 8812"; "**Slug:** reentrancy-in-withdraw";
        "**Protocol:** N/A"; "**Audit Firm:** Cyfrin";
        "**Quality Score:** 4/5"; "**Rarity Score:** 3/5";
        "**Report Date:** 2024-01-15"; "**Finders:** alice, bob (2 total)";
        "**Tags:** N/A"; "**Source:** N/A" ]
  /\ table_of (formattedFinding Sample.finding)
     = Js.Returned
         [ "**ID:** 8812"; "**Slug:** reentrancy-in-withdraw";
           "**Impact:** HIGH";
           "**Protocol:** N/A"; "**Audit Firm:** Cyfrin";
           "**Quality Score:** 4/5"; "**Rarity Score:** 3/5";
           "**Report Date:** 2024-01-15"; "**Finders:** alice, bob (2 total)";
           "**Tags:** N/A"; "**Source:** N/A" ]
  /\ table_of (formatFinding Sample.finding)
     <> table_of (formattedFinding Sample.finding).
Proof.
  split; [reflexivity |]. split; [reflexivity |].
  intros Heq. vm_compute in Heq. discriminate Heq.
Qed.

Lemma detail_table_is_list_table_plus_impact_witness :
  exists rows : list (string * string),
    map fst rows = list_labels
    /\ formatFinding Sample.finding
       = Js.Returned (lines (
           [ "## [HIGH] Reentrancy in withdraw"; "" ]
           ++ map field_line rows
           ++ [ ""; "abc..."; ""; "---" ])%list)
    /\ formattedFinding Sample.finding
       = Js.Returned (Js.trimEnd (lines (
           [ "# Reentrancy in withdraw"; "" ]
           ++ map field_line
                (firstn 2 rows ++ ("Impact", "HIGH") :: skipn 2 rows)
           ++ [ ""; "---"; ""; "## Content"; ""; "abc" ])%list)).
Proof.
  exact (detail_table_is_list_table_plus_impact Sample.finding
           [Sample.finder "alice"; Sample.finder "bob"] [] eq_refl eq_refl).
Defined.

(** C9, counterexample: on the sample finding with its tag list [null],
    [formatFinding] returns no text: it throws. *)
Lemma null_tag_list_throws :
  SoloditFinding.issues_issuetagscore Sample.finding_null_tags = None
  /\ formatFinding Sample.finding_null_tags = Js.Thrown Js.TypeError.
Proof. split; reflexivity. Qed.

Lemma formatFinding_total_on_arrays_witness :
  exists rows : list (string * string),
    formatFinding Sample.finding
    = Js.Returned (lines (
        [ "## [HIGH] Reentrancy in withdraw"; "" ]
        ++ map field_line rows
        ++ [ ""; "abc..."; ""; "---" ])%list)
    /\ map fst rows = list_labels
    /\ In ("Tags", "N/A") rows.
Proof.
  destruct (formatFinding_total_on_arrays Sample.finding
              [Sample.finder "alice"; Sample.finder "bob"] [] eq_refl eq_refl)
    as [rows [Hout [Hlabels [_ Htags]]]].
  exists rows. split; [exact Hout |]. split; [exact Hlabels |].
  exact (Htags eq_refl).
Defined.



(** A body that parses to [null] ends the invocation with the runtime's
    [TypeError]; the status code is not reported. *)
Example null_error_body_throws_type_error :
  snd (run (Sample.always
              (Http.Responded
                 (Http.Failure 500 "Internal Server Error" (Some Js.Null))))
         (searchSoloditFindings (Some "secret")
            (search_request Sample.no_args)))
  = Js.Thrown Js.TypeError.
Proof. reflexivity. Qed.

Lemma missing_api_key_fails_before_fetch_witness :
  run (Sample.always (Http.Responded (Http.Success (Some (Sample.response [])))))
    (searchSoloditFindings None (search_request Sample.no_args))
  = ([], Js.Thrown (Js.Error missing_key_message))
  /\ run (Sample.always (Http.Responded (Http.Success (Some (Sample.response [])))))
       (search_findings None Sample.no_args)
     = ([], Js.Thrown (Js.Error missing_key_message))
  /\ run (Sample.always (Http.Responded (Http.Success (Some (Sample.response [])))))
       (get_finding_by_id None "nonexistent-slug")
     = ([], Js.Thrown (Js.Error missing_key_message)).
Proof.
  exact (missing_api_key_fails_before_fetch None
           (Sample.always
              (Http.Responded (Http.Success (Some (Sample.response [])))))
           (search_request Sample.no_args) Sample.no_args "nonexistent-slug"
           (or_introl eq_refl)).
Defined.

(** [get_finding_by_id({keywords: "nonexistent-slug"})] against a remote
    side that finds nothing. *)
Lemma get_finding_by_id_request_and_not_found_witness :
  snd (run (Sample.always
              (Http.Responded (Http.Success (Some (Sample.response [])))))
         (get_finding_by_id (Some "secret") "nonexistent-slug"))
  = Js.Returned
      {| content :=
           [ {| type := "text";
                text := "No finding found with ID or slug: nonexistent-slug" |} ] |}.
Proof.
  exact (proj2
    (get_finding_by_id_request_and_not_found (Some "secret") "nonexistent-slug"
       (Sample.always
          (Http.Responded (Http.Success (Some (Sample.response [])))))
       eq_refl)
    (Sample.response []) (fun _ _ => eq_refl) eq_refl).
Defined.

(** [search_findings({pageSize: 5})]-like run: two findings come back and
    are rendered in the order returned, after the summary. *)
Example search_findings_sample :
  snd (run (Sample.always
              (Http.Responded
                 (Http.Success
                    (Some (Sample.response [Sample.finding; Sample.finding])))))
         (search_findings (Some "secret") Sample.no_args))
  = Js.Returned (text_result "# Solodit Search Results

**Total Results:** 42
**Page:** 1 of 3
**Results on this page:** 2
**Query Time:** 0.000s
**Rate Limit:** 19/20 remaining

---

## [HIGH] Reentrancy in withdraw

**ID:** 8812
**Slug:** reentrancy-in-withdraw
**Protocol:** N/A
**Audit Firm:** Cyfrin
**Quality Score:** 4/5
**Rarity Score:** 3/5
**Report Date:** 2024-01-15
**Finders:** alice, bob (2 total)
**Tags:** N/A
**Source:** N/A

abc...

---

## [HIGH] Reentrancy in withdraw

**ID:** 8812
**Slug:** reentrancy-in-withdraw
**Protocol:** N/A
**Audit Firm:** Cyfrin
**Quality Score:** 4/5
**Rarity Score:** 3/5
**Report Date:** 2024-01-15
**Finders:** alice, bob (2 total)
**Tags:** N/A
**Source:** N/A

abc...

---").
Proof. reflexivity. Qed.

(** ** Concrete runs of the further properties *)

Lemma filters_hold_only_supplied_keys_witness :
  (forall k : string,
     In k (SoloditFilters.keys (build_filters Sample.mixed_args)) ->
     exists a : string,
       In a (supplied_filters Sample.mixed_args) /\ k = filter_key a)
  /\ SoloditFilters.forked (build_filters Sample.mixed_args) = None
  /\ SoloditFilters.reportedAfter (build_filters Sample.mixed_args) = None.
Proof.
  exact (filters_hold_only_supplied_keys Sample.mixed_args
           (build_filters Sample.mixed_args) eq_refl).
Defined.

(** [{ keywords: "reentrancy", ..., minFinders: "", ... }]: the keywords
    are kept, the empty bound is not. *)
Lemma filters_hold_the_supplied_values_witness :
  SoloditFilters.keywords (build_filters Sample.mixed_args) = Some "reentrancy"
  /\ SoloditFilters.minFinders (build_filters Sample.mixed_args) = None
  /\ SoloditFilters.impact (build_filters Sample.mixed_args)
     = Some [HIGH; MEDIUM]
  /\ SoloditFilters.qualityScore (build_filters Sample.mixed_args)
     = Some 0%Z.
Proof.
  pose proof (filters_hold_the_supplied_values Sample.mixed_args
                (build_filters Sample.mixed_args) eq_refl)
    as [Hstrings [Himpact [Hquality _]]].
  split; [| split; [| split]].
  - apply (proj2 (Hstrings Keywords "reentrancy")).
    split; [reflexivity | discriminate].
  - reflexivity.
  - exact Himpact.
  - exact Hquality.
Defined.

Lemma excerpt_is_bounded_prefix_witness :
  exists shown rest : string,
    body_excerpt Sample.long_finding = shown ++ "..."
    /\ Sample.padding 600 = shown ++ rest
    /\ String.length shown = 500
    /\ String.length (body_excerpt Sample.long_finding) <= 503.
Proof.
  exact (excerpt_is_bounded_prefix Sample.long_finding (or_introl eq_refl)).
Defined.

Lemma summary_rendered_verbatim_witness :
  formatFinding (with_summary (Some "Funds can be drained.") Sample.finding)
  = Js.Returned "## [HIGH] Reentrancy in withdraw

**ID:** 8812
**Slug:** reentrancy-in-withdraw
**Protocol:** N/A
**Audit Firm:** Cyfrin
**Quality Score:** 4/5
**Rarity Score:** 3/5
**Report Date:** 2024-01-15
**Finders:** alice, bob (2 total)
**Tags:** N/A
**Source:** N/A

Funds can be drained.

---".
Proof.
  refine (summary_rendered_verbatim
            (with_summary (Some "Funds can be drained.") Sample.finding)
            "Funds can be drained."
            [Sample.finder "alice"; Sample.finder "bob"] []
            eq_refl _ eq_refl eq_refl).
  discriminate.
Defined.

(** The firm name of the long sample finding is the empty string. *)
Lemma nullable_fields_have_placeholder_witness :
  exists rows : list (string * string),
    formatFinding Sample.long_finding
    = Js.Returned (lines (
        [ "## [MEDIUM] Oracle price manipulation"; "" ]
        ++ map field_line rows
        ++ [ ""; body_excerpt Sample.long_finding; ""; "---" ])%list)
    /\ In ("Audit Firm", "N/A") rows.
Proof.
  exact (nullable_fields_have_placeholder FirmName Sample.long_finding
           [Sample.finder ""] [Sample.tag "Oracle"; Sample.tag "Price"]
           eq_refl eq_refl).
Defined.

(** One finder with an empty handle, two tags. *)
Lemma finders_and_tags_rows_witness :
  exists rows : list (string * string),
    formatFinding Sample.long_finding
    = Js.Returned (lines (
        [ "## [MEDIUM] Oracle price manipulation"; "" ]
        ++ map field_line rows
        ++ [ ""; body_excerpt Sample.long_finding; ""; "---" ])%list)
    /\ In ("Finders", "N/A (1 total)") rows
    /\ In ("Tags", "Oracle, Price") rows.
Proof.
  exact (finders_and_tags_rows Sample.long_finding
           [Sample.finder ""] [Sample.tag "Oracle"; Sample.tag "Price"]
           eq_refl eq_refl).
Defined.

Lemma renderings_throw_without_arrays_witness :
  formatFinding Sample.finding_null_tags = Js.Thrown Js.TypeError
  /\ formattedFinding Sample.finding_null_tags = Js.Thrown Js.TypeError.
Proof.
  exact (renderings_throw_without_arrays Sample.finding_null_tags
           (or_intror eq_refl)).
Defined.

(** The 600 characters of the long sample finding are all rendered. *)
Lemma detail_renders_whole_content_witness :
  formattedFinding Sample.long_finding
  = Js.Returned (lines (
      [ "# Oracle price manipulation"; "" ]
      ++ map field_line
           (formattedFinding_fields Sample.long_finding "" "Oracle, Price")
      ++ [ ""; "---"; ""; "## Content"; ""; Sample.padding 600 ])%list).
Proof.
  exact (detail_renders_whole_content Sample.long_finding
           [Sample.finder ""] [Sample.tag "Oracle"; Sample.tag "Price"]
           eq_refl eq_refl).
Defined.

Lemma search_findings_posts_its_request_witness :
  fst (run (Sample.answering (Sample.response []))
         (search_findings (Some "secret") Sample.mixed_args))
  = [ {| Http.url := "https://solodit.cyfrin.io/api/v1/solodit/findings";
         Http.method := "POST";
         Http.headers := [("Content-Type", "application/json");
                          ("X-Cyfrin-API-Key", "secret")];
         Http.body := search_request Sample.mixed_args |} ].
Proof.
  refine (search_findings_posts_its_request "secret"
            (Sample.answering (Sample.response [])) Sample.mixed_args _).
  discriminate.
Defined.

Lemma search_findings_renders_page_witness :
  exists blocks : list string,
    Forall2 (fun f b => formatFinding f = Js.Returned b)
      [Sample.finding; Sample.long_finding] blocks
    /\ exists page : string,
         snd (run (Sample.answering Sample.page_response)
                (search_findings (Some "secret") Sample.no_args))
         = Js.Returned {| content := [ {| type := "text"; text := page |} ] |}.
Proof.
  destruct (search_findings_renders_page (Some "secret") Sample.no_args
              (Sample.answering Sample.page_response) Sample.page_response
              eq_refl (fun _ _ => eq_refl))
    as [blocks [Hall Hout]].
  - repeat constructor; eexists; eexists; split; reflexivity.
  - exists blocks. split; [exact Hall |]. eexists. exact Hout.
Defined.

Lemma search_findings_all_or_nothing_witness :
  snd (run (Sample.answering Sample.flawed_response)
         (search_findings (Some "secret") Sample.no_args))
  = Js.Thrown Js.TypeError.
Proof.
  refine (search_findings_all_or_nothing (Some "secret") Sample.no_args
            (Sample.answering Sample.flawed_response) Sample.flawed_response
            eq_refl (fun _ _ => eq_refl) _).
  apply Exists_cons_tl, Exists_cons_hd. right. reflexivity.
Defined.

Lemma tools_surface_the_failure_witness :
  run (Sample.failing 429 "Too Many Requests" (Some Sample.rate_limited))
    (get_finding_by_id (Some "secret") "8812")
  = (fst (run (Sample.failing 429 "Too Many Requests"
                 (Some Sample.rate_limited))
            (searchSoloditFindings (Some "secret")
               (lookup_request "8812"))),
     Js.Thrown (Js.Error "Solodit API error (429): rate limited")).
Proof.
  exact (proj2
    (tools_surface_the_failure (Some "secret")
       (Sample.failing 429 "Too Many Requests" (Some Sample.rate_limited))
       Sample.no_args "8812"
       (Js.Error "Solodit API error (429): rate limited"))
    eq_refl).
Defined.

Lemma transport_failures_reject_witness :
  snd (run (Sample.always Http.Unreachable)
         (searchSoloditFindings (Some "secret")
            (search_request Sample.no_args)))
  = Js.Thrown Js.Rejected.
Proof.
  exact (transport_failures_reject (Some "secret")
           (search_request Sample.no_args) (Sample.always Http.Unreachable)
           eq_refl (fun _ _ => or_introl eq_refl)).
Defined.

(** Status 503 with the body [{"error":"down"}]: no [message] key. *)
Lemma error_falls_back_to_status_text_witness :
  snd (run (Sample.failing 503 "Service Unavailable"
              (Some (Js.Object [("error", Js.Str "down")])))
         (searchSoloditFindings (Some "secret")
            (search_request Sample.no_args)))
  = Js.Thrown (Js.Error "Solodit API error (503): Service Unavailable").
Proof.
  refine (error_falls_back_to_status_text (Some "secret")
            (search_request Sample.no_args)
            (Sample.failing 503 "Service Unavailable"
               (Some (Js.Object [("error", Js.Str "down")])))
            503 "Service Unavailable" (Js.Object [("error", Js.Str "down")])
            eq_refl (fun _ _ => eq_refl) _ _).
  - discriminate.
  - intros props [= <-]. left. reflexivity.
Defined.

Lemma null_error_body_loses_status_witness :
  snd (run (Sample.failing 500 "Internal Server Error" (Some Js.Null))
         (searchSoloditFindings (Some "secret")
            (search_request Sample.no_args)))
  = Js.Thrown Js.TypeError.
Proof.
  exact (null_error_body_loses_status (Some "secret")
           (search_request Sample.no_args)
           (Sample.failing 500 "Internal Server Error" (Some Js.Null))
           500 "Internal Server Error" eq_refl (fun _ _ => eq_refl)).
Defined.

(** Status 400 with the body [{"message":42}]. *)
Lemma structured_message_is_converted_witness :
  snd (run (Sample.failing 400 "Bad Request"
              (Some (Js.Object [("message", Js.Num 42%Z)])))
         (searchSoloditFindings (Some "secret")
            (search_request Sample.no_args)))
  = Js.Thrown (Js.Error "Solodit API error (400): 42").
Proof.
  exact (proj1
    (structured_message_is_converted (Some "secret")
       (search_request Sample.no_args)
       (Sample.failing 400 "Bad Request"
          (Some (Js.Object [("message", Js.Num 42%Z)])))
       400 "Bad Request" [("message", Js.Num 42%Z)] (Js.Num 42%Z)
       eq_refl (fun _ _ => eq_refl) eq_refl)
    42%Z eq_refl eq_refl).
Defined.

(** The second finding of the flawed response is never read. *)
Lemma get_finding_by_id_renders_first_finding_witness :
  exists out : string,
    formattedFinding Sample.finding = Js.Returned out
    /\ snd (run (Sample.answering Sample.flawed_response)
              (get_finding_by_id (Some "secret") "8812"))
       = Js.Returned {| content := [ {| type := "text"; text := out |} ] |}.
Proof.
  apply (proj1
    (get_finding_by_id_renders_first_finding (Some "secret") "8812"
       (Sample.answering Sample.flawed_response) Sample.flawed_response
       Sample.finding [Sample.finding_null_tags]
       eq_refl (fun _ _ => eq_refl) eq_refl)).
  eexists. eexists. split; reflexivity.
Defined.
